(** * Point clouds: a shallow embedding of [point_tools.py]

    The development follows [src/modules/point_tools.py] (the current
    module) and, where a claim refers to it, the earlier copy
    [src/point_tools/point_tools.py].

    - Python exceptions are values of [PyError]; a call that may raise
      returns a [result].
    - Coordinates are numpy [float64] values.  The code is written once
      over a [Scalar] interface and instantiated at IEEE-754 binary64
      ([spec_float] with [prec = 53], [emax = 1024]), which is what the
      interpreter computes.
    - Texts are Python [str] values of code points below 256, one
      [ascii] per code point.
    - [TypeError] branches guarded by [isinstance] are discharged by the
      types of the embedding (keys are integers, factors are scalars). *)

From Stdlib Require Import Ascii String.
From Stdlib Require Import List ZArith Bool Lia Arith.
From Stdlib Require Import SpecFloat.
Import ListNotations.

Set Implicit Arguments.

(** ** Exceptions and results *)

(** The exceptions the modelled code can raise, one constructor per
    raising site. *)
Inductive PyError : Type :=
| IndexError_out_of_range      (* Point.__getitem__: "Index out of range" *)
| IndexError_ndarray           (* numpy: index out of bounds for the axis *)
| ValueError_same_dimension    (* "Points must have the same dimension" *)
| ValueError_reshape           (* numpy: cannot reshape array of size .. *)
| ValueError_max_empty         (* max() of an empty sequence *)
| ValueError_math_domain       (* math.sqrt of a negative number *)
| ValueError_empty_separator   (* str.split with an empty separator *)
| ValueError_float.            (* float(): could not convert string *)

Inductive PyErrorKind : Type := IndexError | ValueError.

Definition error_kind (e : PyError) : PyErrorKind :=
  match e with
  | IndexError_out_of_range | IndexError_ndarray => IndexError
  | _ => ValueError
  end.

Inductive result (A : Type) : Type :=
| Ok (a : A)
| Raise (e : PyError).
Arguments Ok {A} a.
Arguments Raise {A} e.

Definition bind {A B} (r : result A) (k : A -> result B) : result B :=
  match r with
  | Ok a => k a
  | Raise e => Raise e
  end.

Declare Scope py_scope.
Delimit Scope py_scope with py.
Notation "x <- e ;; k" := (bind e (fun x => k))
  (at level 61, e at next level, right associativity) : py_scope.
Open Scope py_scope.

(** A list comprehension whose body may raise: the first exception, in
    iteration order, is the one that propagates. *)
Fixpoint mapM {A B} (f : A -> result B) (l : list A) : result (list B) :=
  match l with
  | [] => Ok []
  | a :: l' => b <- f a ;; bs <- mapM f l' ;; Ok (b :: bs)
  end.

Definition is_ok {A} (r : result A) : bool :=
  match r with Ok _ => true | Raise _ => false end.

(** [range(n)] *)
Definition range (n : nat) : list Z := map Z.of_nat (seq 0 n).

(** ** Scalars *)

Class Scalar (F : Type) : Type := {
  s_zero : F;
  s_add : F -> F -> F;
  s_sub : F -> F -> F;
  s_mul : F -> F -> F;
  s_div : F -> F -> F;
  s_sqrt : F -> F;
  s_ltb : F -> F -> bool
}.

(** What [distance] needs to know about the arithmetic to stay inside
    the domain of [math.sqrt]: a sum of squares is never below zero. *)
Class ScalarLaws (F : Type) `{Scalar F} : Prop := {
  zero_not_neg : s_ltb s_zero s_zero = false;
  sq_not_neg : forall x, s_ltb (s_mul x x) s_zero = false;
  add_not_neg : forall a b,
      s_ltb a s_zero = false -> s_ltb b s_zero = false ->
      s_ltb (s_add a b) s_zero = false
}.

(** ** Strings *)

(** [sep.join(items)] *)
Fixpoint str_join (sep : string) (items : list string) : string :=
  match items with
  | [] => EmptyString
  | s :: rest =>
      match rest with
      | [] => s
      | _ :: _ => String.append s (String.append sep (str_join sep rest))
      end
  end.

(** The scan behind [s.split(sep)] for a non-empty [sep]: occurrences
    are taken left to right and do not overlap.  [skip] counts the
    characters of a matched separator still to be passed over, [cur]
    is the piece read since the last separator. *)
Fixpoint split_scan (sep s : string) (skip : nat) (cur : string) : list string :=
  match s with
  | EmptyString => [cur]
  | String c s' =>
      match skip with
      | S k => split_scan sep s' k cur
      | O =>
          if String.prefix sep s
          then cur :: split_scan sep s' (String.length sep - 1) EmptyString
          else split_scan sep s' 0 (String.append cur (String c EmptyString))
      end
  end.

(** [s.split(sep)] *)
Definition str_split (s sep : string) : result (list string) :=
  match sep with
  | EmptyString => Raise ValueError_empty_separator
  | String _ _ => Ok (split_scan sep s 0 EmptyString)
  end.

(** The builtins [str] and [float] at the scalar type. *)
Class FloatText (F : Type) : Type := {
  py_str : F -> string;
  py_float : string -> result F
}.

Section PointTools.
Context {F : Type} `{Scalar F}.

(** *** numpy arrays of scalars (one axis) *)

(** [a[key]] for an integer key: negative keys count from the end. *)
Definition ndarray_getitem (a : list F) (key : Z) : result F :=
  let n := Z.of_nat (length a) in
  if ((key <? - n) || (n <=? key))%Z then Raise IndexError_ndarray
  else
    let i := if (key <? 0)%Z then (key + n)%Z else key in
    match nth_error a (Z.to_nat i) with
    | Some v => Ok v
    | None => Raise IndexError_ndarray
    end.

(** Element-wise binary operation on two arrays of one shape. *)
Definition ndarray_zip (f : F -> F -> F) (a b : list F) : list F :=
  map (fun ab => f (fst ab) (snd ab)) (combine a b).

(** [np.zeros(n)] *)
Definition np_zeros (n : nat) : list F := repeat s_zero n.

(** [np.array(points).reshape(rows, cols)], row-major. *)
Fixpoint chunks (cols rows : nat) (l : list F) : list (list F) :=
  match rows with
  | O => []
  | S rows' => firstn cols l :: chunks cols rows' (skipn cols l)
  end.

Definition ndarray_reshape (l : list F) (rows cols : nat)
  : result (list (list F)) :=
  if length l =? rows * cols then Ok (chunks cols rows l)
  else Raise ValueError_reshape.

(** *** Python builtins *)

(** [sum(xs)]: left to right, starting from 0. *)
Definition py_sum (xs : list F) : F := fold_left s_add xs s_zero.

(** [max(xs)]: keeps the first maximal item; an item replaces the
    running maximum only when it compares greater. *)
Definition py_max (xs : list F) : result F :=
  match xs with
  | [] => Raise ValueError_max_empty
  | x :: xs' => Ok (fold_left (fun m y => if s_ltb m y then y else m) xs' x)
  end.

(** [math.sqrt(x)] *)
Definition math_sqrt (x : F) : result F :=
  if s_ltb x s_zero then Raise ValueError_math_domain else Ok (s_sqrt x).

(** *** class Point *)

Record Point : Type := mkPoint {
  coordinates : list F;
  dimension : nat;
  x : option F;
  y : option F;
  z : option F
}.

(** [Point.__init__]: [x], [y], [z] are set only for 1 to 3
    dimensions. *)
Definition Point_init (coords : list F) : Point :=
  let d := length coords in
  {| coordinates := coords;
     dimension := d;
     x := if (d <=? 3) && (1 <=? d) then nth_error coords 0 else None;
     y := if (d <=? 3) && (2 <=? d) then nth_error coords 1 else None;
     z := if (d <=? 3) && (3 <=? d) then nth_error coords 2 else None |}.

(** [Point.__getitem__] *)
Definition Point_getitem (self : Point) (key : Z) : result F :=
  if (key >? Z.of_nat (dimension self) - 1)%Z
  then Raise IndexError_out_of_range
  else ndarray_getitem (coordinates self) key.

(** [Point.__add__] *)
Definition Point_add (self other : Point) : result Point :=
  if negb (dimension self =? dimension other)
  then Raise ValueError_same_dimension
  else Ok (Point_init (ndarray_zip s_add (coordinates self) (coordinates other))).

(** [Point.__sub__] *)
Definition Point_sub (self other : Point) : result Point :=
  if negb (dimension self =? dimension other)
  then Raise ValueError_same_dimension
  else Ok (Point_init (ndarray_zip s_sub (coordinates self) (coordinates other))).

(** [Point.__mul__] *)
Definition Point_mul (self : Point) (other : F) : result Point :=
  Ok (Point_init (map (fun c => s_mul c other) (coordinates self))).

(** [Point.__truediv__]: no test on [other]; the division is numpy's. *)
Definition Point_truediv (self : Point) (other : F) : result Point :=
  Ok (Point_init (map (fun c => s_div c other) (coordinates self))).

(** [class Origin(Point)] *)
Definition Origin (dimension : nat) : Point := Point_init (np_zeros dimension).

(** *** distance *)

(** The body of [distance]: the squared differences are collected
    over [range(point1.dimension)], indexing both points.  The source
    writes the square as [** 2], which numpy hands to the C library's
    [pow] for a scalar; here the difference is multiplied by itself.
    At binary64 the two agree where the square is representable,
    overflows or falls below the least positive number, and may
    differ in the last binary digit elsewhere. *)
Definition squared_differences (point1 point2 : Point) : result (list F) :=
  mapM (fun i =>
          a <- Point_getitem point1 i ;;
          b <- Point_getitem point2 i ;;
          Ok (s_mul (s_sub a b) (s_sub a b)))
       (range (dimension point1)).

Definition distance (point1 point2 : Point) : result F :=
  terms <- squared_differences point1 point2 ;;
  math_sqrt (py_sum terms).

(** The default of [point2] is evaluated once, when the function is
    defined: [Origin()], of dimension 3. *)
Definition distance_point2_default : Point := Origin 3.

Definition distance1 (point1 : Point) : result F :=
  distance point1 distance_point2_default.

(** *** class PointCloud *)

Record PointCloud : Type := mkPointCloud {
  points : list Point;
  cloud_dimension : nat;
  point_count : nat
}.

(** [PointCloud.normalise], as in [src/modules/point_tools.py]: the
    maximum is searched over [self.points[1:]]. *)
Definition normalise (self : PointCloud) : result PointCloud :=
  origin <- match points self with
            | [] => Raise IndexError_ndarray
            | p :: _ => Ok p
            end ;;
  distances <- mapM (fun point => distance point origin) (tl (points self)) ;;
  max_distance <- py_max distances ;;
  new_points <- mapM (fun point =>
                        shifted <- Point_sub point origin ;;
                        Point_truediv shifted max_distance)
                     (points self) ;;
  Ok {| points := new_points;
        cloud_dimension := cloud_dimension self;
        point_count := point_count self |}.

(** [PointCloud.__init__] *)
Definition PointCloud_init (raw : list F) (dimension point_count : nat)
  (normalise_flag : bool) : result PointCloud :=
  reformatted_points <- ndarray_reshape raw point_count dimension ;;
  let self := {| points := map Point_init reformatted_points;
                 cloud_dimension := dimension;
                 point_count := point_count |} in
  if normalise_flag then normalise self else Ok self.

(** [PointCloud.from_mphands]: each landmark contributes its
    [(x, y, z)] triple. *)
Definition from_mphands (hand_landmarks : list (F * F * F))
  (dimension point_count : nat) (normalise_flag : bool) : result PointCloud :=
  PointCloud_init
    (flat_map (fun lm => [fst (fst lm); snd (fst lm); snd lm]) hand_landmarks)
    dimension point_count normalise_flag.

Section Text.
Context `{FloatText F}.

(** [PointCloud.from_csv_line] *)
Definition from_csv_line (line delimiter : string)
  (dimension point_count : nat) (normalise_flag : bool) : result PointCloud :=
  tokens <- str_split line delimiter ;;
  coords <- mapM py_float tokens ;;
  PointCloud_init coords dimension point_count normalise_flag.

(** [PointCloud.csv_repr] *)
Definition csv_repr (self : PointCloud) (delimiter : string) : string :=
  str_join delimiter (map py_str (flat_map coordinates (points self))).

End Text.

(** *** The earlier copy, [src/point_tools/point_tools.py] *)

(** There the arithmetic is spelled out coordinate by coordinate. *)
Definition legacy_Point_sub (self other : Point) : result Point :=
  if negb (dimension self =? dimension other)
  then Raise ValueError_same_dimension
  else
    new_coordinates <-
      mapM (fun i =>
              a <- ndarray_getitem (coordinates self) i ;;
              b <- ndarray_getitem (coordinates other) i ;;
              Ok (s_sub a b))
           (range (dimension self)) ;;
    Ok (Point_init new_coordinates).

Definition legacy_Point_truediv (self : Point) (other : F) : result Point :=
  new_coordinates <-
    mapM (fun i =>
            a <- ndarray_getitem (coordinates self) i ;;
            Ok (s_div a other))
         (range (dimension self)) ;;
  Ok (Point_init new_coordinates).

(** [distance] is declared there with a leading [self] parameter, so a
    call [distance(point, origin)] binds [point] to [self], [origin] to
    [point1], and leaves [point2] at its default. *)
Definition legacy_distance (self point1 point2 : Point) : result F :=
  terms <- squared_differences point1 point2 ;;
  math_sqrt (py_sum terms).

(** [PointCloud.normalise] of that copy: the maximum is searched over
    all of [self.points]. *)
Definition legacy_normalise (self : PointCloud) : result PointCloud :=
  origin <- match points self with
            | [] => Raise IndexError_ndarray
            | p :: _ => Ok p
            end ;;
  distances <- mapM (fun point => legacy_distance point origin distance_point2_default)
                    (points self) ;;
  max_distance <- py_max distances ;;
  new_points <- mapM (fun point =>
                        shifted <- legacy_Point_sub point origin ;;
                        legacy_Point_truediv shifted max_distance)
                     (points self) ;;
  Ok {| points := new_points;
        cloud_dimension := cloud_dimension self;
        point_count := point_count self |}.

Definition legacy_PointCloud_init (raw : list F) (dimension point_count : nat)
  (normalise_flag : bool) : result PointCloud :=
  reformatted_points <- ndarray_reshape raw point_count dimension ;;
  let self := {| points := map Point_init reformatted_points;
                 cloud_dimension := dimension;
                 point_count := point_count |} in
  if normalise_flag then legacy_normalise self else Ok self.

End PointTools.


(** ** Derived quantities *)

(** [c] occurs in [s]. *)
Fixpoint contains_char (c : ascii) (s : string) : bool :=
  match s with
  | EmptyString => false
  | String c' s' => Ascii.eqb c c' || contains_char c s'
  end.

Section Derived.
Context {F : Type} `{Scalar F}.

(** One term of the sum, and the value [distance] returns when it
    returns: the Euclidean distance over the paired coordinates. *)
Definition sq_diff (a b : F) : F := s_mul (s_sub a b) (s_sub a b).

Definition euclid (a b : list F) : F := s_sqrt (py_sum (ndarray_zip sq_diff a b)).

(** The coordinates [normalise] gives the row [r] for the origin row
    [r0] and the scale [m]. *)
Definition normalised_row (r0 : list F) (m : F) (r : list F) : list F :=
  map (fun c => s_div c m) (ndarray_zip s_sub r r0).

(** The quantity the specification measures on a cloud:
    [max(distance(points[i], points[0]) for i in 1..n-1)]. *)
Definition max_distance_from_first (self : PointCloud) : result F :=
  origin <- match points self with
            | [] => Raise IndexError_ndarray
            | p :: _ => Ok p
            end ;;
  distances <- mapM (fun point => distance point origin) (tl (points self)) ;;
  py_max distances.

End Derived.

(** ** IEEE-754 binary64 *)

Definition prec : Z := 53.
Definition emax : Z := 1024.

#[export] Instance binary64 : Scalar spec_float := {|
  s_zero := S754_zero false;
  s_add := SFadd prec emax;
  s_sub := SFsub prec emax;
  s_mul := SFmul prec emax;
  s_div := SFdiv prec emax;
  s_sqrt := SFsqrt prec emax;
  s_ltb := SFltb
|}.

(** The float nearest to an integer, and to [m * 10^e]. *)
Definition b64_of_Z (n : Z) : spec_float := binary_normalize prec emax n 0 false.

(** Neither negative infinity nor a negative finite number: zeros of
    either sign and NaN compare as not below zero. *)
Definition not_neg (x : spec_float) : bool :=
  match x with
  | S754_infinity true | S754_finite true _ _ => false
  | _ => true
  end.

Definition is_finite (x : spec_float) : bool :=
  match x with
  | S754_zero _ | S754_finite _ _ _ => true
  | _ => false
  end.

Definition is_inf_or_nan (x : spec_float) : bool := negb (is_finite x).

(** ** The builtins [float] and [str] at binary64 *)

(** *** Decimal to binary *)

Definition SF_eqb (a b : spec_float) : bool :=
  match a, b with
  | S754_zero s1, S754_zero s2 => Bool.eqb s1 s2
  | S754_infinity s1, S754_infinity s2 => Bool.eqb s1 s2
  | S754_nan, S754_nan => true
  | S754_finite s1 m1 e1, S754_finite s2 m2 e2 =>
      Bool.eqb s1 s2 && Pos.eqb m1 m2 && Z.eqb e1 e2
  | _, _ => false
  end.

(** The binary64 number nearest to [m * 10^e] ([m >= 0]), ties to
    even, with the sign [neg]: the quotient is taken with enough
    binary digits and the remainder kept as the rounding position. *)
Definition b64_of_decimal (neg : bool) (m e : Z) : spec_float :=
  match m with
  | Z0 => S754_zero neg
  | Zneg _ => S754_nan
  | Zpos _ =>
      if (0 <=? e)%Z then
        match (m * 10 ^ e)%Z with
        | Zpos q => binary_round prec emax neg q 0
        | _ => S754_nan
        end
      else
        let d := (10 ^ (- e))%Z in
        let s := Z.max 0 (66 + Z.log2 d - Z.log2 m) in
        let '(q, r) := Z.div_eucl (Z.shiftl m s) d in
        binary_round_aux prec emax neg q (- s) (new_location d r)
  end.

(** *** [float(s)] *)

Definition digit_value (c : ascii) : option Z :=
  let n := nat_of_ascii c in
  if (48 <=? n) && (n <=? 57) then Some (Z.of_nat (n - 48)) else None.

(** What [float()] strips from both ends: the C white space (tab to
    carriage return, and the space) and, of the code points from 127
    to 255, the two Unicode white spaces U+0085 and U+00A0, which
    [float()] turns into spaces first.  The separators U+001C to
    U+001F are not stripped. *)
Definition is_space (c : ascii) : bool :=
  let n := nat_of_ascii c in
  ((9 <=? n) && (n <=? 13)) || (n =? 32) || (n =? 133) || (n =? 160).

Definition lower (c : ascii) : ascii :=
  let n := nat_of_ascii c in
  if (65 <=? n) && (n <=? 90) then ascii_of_nat (n + 32) else c.

Fixpoint lower_string (s : string) : string :=
  match s with
  | EmptyString => EmptyString
  | String c s' => String (lower c) (lower_string s')
  end.

Fixpoint lstrip (s : string) : string :=
  match s with
  | String c s' => if is_space c then lstrip s' else s
  | EmptyString => s
  end.

Fixpoint rstrip (s : string) : string :=
  match s with
  | EmptyString => EmptyString
  | String c s' =>
      match rstrip s' with
      | EmptyString => if is_space c then EmptyString else String c EmptyString
      | t => String c t
      end
  end.

(** A run of digits in which single underscores may separate digits:
    the digits read so far as a number, their count, and what follows. *)
Fixpoint read_digits_tail (s : string) (acc cnt : Z) : Z * Z * string :=
  match s with
  | EmptyString => (acc, cnt, s)
  | String c s' =>
      match digit_value c with
      | Some d => read_digits_tail s' (10 * acc + d)%Z (cnt + 1)%Z
      | None =>
          if Ascii.eqb c "_"%char then
            match s' with
            | String c2 s'' =>
                match digit_value c2 with
                | Some d => read_digits_tail s'' (10 * acc + d)%Z (cnt + 1)%Z
                | None => (acc, cnt, s)
                end
            | EmptyString => (acc, cnt, s)
            end
          else (acc, cnt, s)
      end
  end.

Definition read_digits (s : string) (acc cnt : Z) : option (Z * Z * string) :=
  match s with
  | String c s' =>
      match digit_value c with
      | Some d => Some (read_digits_tail s' (10 * acc + d)%Z (cnt + 1)%Z)
      | None => None
      end
  | EmptyString => None
  end.

Definition read_sign (s : string) : bool * string :=
  match s with
  | String c s' =>
      if Ascii.eqb c "-"%char then (true, s')
      else if Ascii.eqb c "+"%char then (false, s')
      else (false, s)
  | EmptyString => (false, s)
  end.

(** The exponent part, when one follows; [None] when the text is not a
    number. *)
Definition read_exponent (s : string) : option Z :=
  match s with
  | EmptyString => Some 0%Z
  | String c s' =>
      if Ascii.eqb (lower c) "e"%char then
        let '(neg, s'') := read_sign s' in
        match read_digits s'' 0 0 with
        | Some (e, _, EmptyString) => Some (if neg then (- e)%Z else e)
        | _ => None
        end
      else None
  end.

(** [number [exponent]]: the digits as an integer and the power of ten
    that scales it. *)
Definition read_number (s : string) : option (Z * Z) :=
  match read_digits s 0 0 with
  | Some (m, _, rest) =>
      match rest with
      | String "."%char rest' =>
          let '(m', frac, rest'') :=
            match read_digits rest' m 0 with
            | Some r => r
            | None => (m, 0%Z, rest')
            end in
          match read_exponent rest'' with
          | Some e => Some (m', (e - frac)%Z)
          | None => None
          end
      | _ =>
          match read_exponent rest with
          | Some e => Some (m, e)
          | None => None
          end
      end
  | None =>
      match s with
      | String "."%char rest' =>
          match read_digits rest' 0 0 with
          | Some (m', frac, rest'') =>
              match read_exponent rest'' with
              | Some e => Some (m', (e - frac)%Z)
              | None => None
              end
          | None => None
          end
      | _ => None
      end
  end.

Definition b64_float (s : string) : result spec_float :=
  let '(neg, body) := read_sign (rstrip (lstrip s)) in
  let word := lower_string body in
  if String.eqb word "inf" || String.eqb word "infinity" then Ok (S754_infinity neg)
  else if String.eqb word "nan" then Ok S754_nan
  else
    match read_number body with
    | Some (m, e) => Ok (b64_of_decimal neg m e)
    | None => Raise ValueError_float
    end.

(** *** [str(x)]: the shortest decimal text that reads back as [x] *)

(** [v = num / den >= 10^p] *)
Definition ge_pow10 (num den p : Z) : bool :=
  if (0 <=? p)%Z then (den * 10 ^ p <=? num)%Z else (den <=? num * 10 ^ (- p))%Z.

(** The greatest [p] with [10^p <= num / den], searched downwards from
    an upper estimate. *)
Fixpoint floor_log10_from (fuel : nat) (num den p : Z) : Z :=
  match fuel with
  | O => p
  | S fuel' => if ge_pow10 num den p then p else floor_log10_from fuel' num den (p - 1)
  end.

Definition floor_log10 (num den : Z) : Z :=
  floor_log10_from 8 num den (((Z.log2 num - Z.log2 den + 1) * 30103) / 100000 + 2).

(** [num / (den * 10^t)] as a quotient and a remainder over its divisor. *)
Definition scaled_div (num den t : Z) : Z * Z * Z :=
  let '(n, d) := if (0 <=? t)%Z then (num, den * 10 ^ t)%Z else (num * 10 ^ (- t), den)%Z in
  let '(q, r) := Z.div_eucl n d in
  (q, r, d).

(** The [k]-digit decimals on either side of [x = num / den], when one
    of them reads back as [x]: the nearer of those that do. *)
Definition shortest_at (x : spec_float) (num den p : Z) (k : Z) : option (Z * Z) :=
  let t := (p - (k - 1))%Z in
  let '(lo, r, d) := scaled_div num den t in
  let hi := (lo + 1)%Z in
  let ok_lo := SF_eqb (b64_of_decimal false lo t) x in
  let ok_hi := SF_eqb (b64_of_decimal false hi t) x in
  if (r =? 0)%Z then (if ok_lo then Some (lo, t) else None)
  else
    match ok_lo, ok_hi with
    | true, true =>
        match (2 * r ?= d)%Z with
        | Lt => Some (lo, t)
        | Gt => Some (hi, t)
        | Eq => if Z.even lo then Some (lo, t) else Some (hi, t)
        end
    | true, false => Some (lo, t)
    | false, true => Some (hi, t)
    | false, false => None
    end.

Fixpoint shortest_from (fuel : nat) (x : spec_float) (num den p : Z) (k : Z) : Z * Z :=
  match fuel with
  | O => let '(lo, _, _) := scaled_div num den (p - (k - 1)) in (lo, (p - (k - 1))%Z)
  | S fuel' =>
      match shortest_at x num den p k with
      | Some r => r
      | None => shortest_from fuel' x num den p (k + 1)
      end
  end.

Fixpoint strip_zeros (fuel : nat) (digits t : Z) : Z * Z :=
  match fuel with
  | O => (digits, t)
  | S fuel' =>
      if (digits mod 10 =? 0)%Z then strip_zeros fuel' (digits / 10)%Z (t + 1)%Z
      else (digits, t)
  end.

Definition digit_char (d : Z) : ascii := ascii_of_nat (48 + Z.to_nat d).

Fixpoint decimal_digits (fuel : nat) (n : Z) (acc : string) : string :=
  match fuel with
  | O => acc
  | S fuel' =>
      let acc' := String (digit_char (n mod 10)) acc in
      if (n <? 10)%Z then acc' else decimal_digits fuel' (n / 10)%Z acc'
  end.

Definition string_of_nonneg (n : Z) : string :=
  decimal_digits (S (Z.to_nat (Z.log2 n))) n EmptyString.

Fixpoint zeros (n : nat) : string :=
  match n with
  | O => EmptyString
  | S n' => String "0"%char (zeros n')
  end.

Fixpoint string_take (n : nat) (s : string) : string :=
  match n, s with
  | S n', String c s' => String c (string_take n' s')
  | _, _ => EmptyString
  end.

Fixpoint string_drop (n : nat) (s : string) : string :=
  match n, s with
  | S n', String _ s' => string_drop n' s'
  | _, _ => s
  end.

(** The layout of [repr]: plain notation when the decimal point falls
    in [(-4, 16]], exponent notation otherwise. *)
Definition format_digits (digits : string) (decpt : Z) : string :=
  let n := Z.of_nat (String.length digits) in
  if ((-4 <? decpt) && (decpt <=? 16))%Z then
    if (decpt <=? 0)%Z then
      String.append "0." (String.append (zeros (Z.to_nat (- decpt))) digits)
    else if (n <=? decpt)%Z then
      String.append digits (String.append (zeros (Z.to_nat (decpt - n))) ".0")
    else
      String.append (string_take (Z.to_nat decpt) digits)
        (String.append "." (string_drop (Z.to_nat decpt) digits))
  else
    let e := (decpt - 1)%Z in
    let mant :=
      match digits with
      | String c EmptyString => digits
      | String c rest => String c (String.append "." rest)
      | EmptyString => digits
      end in
    let ae := string_of_nonneg (Z.abs e) in
    let ae := if (Z.abs e <? 10)%Z then String "0"%char ae else ae in
    String.append mant
      (String.append (if (e <? 0)%Z then "e-" else "e+") ae).

Definition b64_str (x : spec_float) : string :=
  match x with
  | S754_nan => "nan"
  | S754_infinity s => if s then "-inf" else "inf"
  | S754_zero s => if s then "-0.0" else "0.0"
  | S754_finite s m e =>
      let '(num, den) :=
        if (0 <=? e)%Z then (Z.pos m * 2 ^ e, 1)%Z else (Z.pos m, 2 ^ (- e))%Z in
      let p := floor_log10 num den in
      let '(d, t) := shortest_from 17 (S754_finite false m e) num den p 1 in
      let '(d, t) := strip_zeros 20 d t in
      let digits := string_of_nonneg d in
      let body := format_digits digits (Z.of_nat (String.length digits) + t) in
      if s then String "-"%char body else body
  end.

#[export] Instance binary64_text : FloatText spec_float := {|
  py_str := b64_str;
  py_float := b64_float
|}.

(** ** Objects and identity

    The functions above compute with the values of Points.  To speak
    about mutation, the same methods are given here over a store of
    objects: a Point object holds a reference to its coordinates
    array, and every constructor call allocates.  References are
    positions in the store. *)

Section Objects.
Context {F : Type} `{Scalar F}.

Definition ref : Type := nat.

Inductive object : Type :=
| Ndarray (data : list F)
| PointObject (coords : ref) (dim : nat) (ox oy oz : option F).

Definition heap : Type := list object.

(** A computation on the store: [None] when a reference does not hold
    an object of the expected class (no Python program reaches that). *)
Definition Heap (A : Type) : Type := heap -> option (result A * heap).

Definition hraise {A} (e : PyError) : Heap A := fun h => Some (Raise e, h).

Definition hbind {A B} (m : Heap A) (k : A -> Heap B) : Heap B :=
  fun h =>
    match m h with
    | Some (Ok a, h') => k a h'
    | Some (Raise e, h') => Some (Raise e, h')
    | None => None
    end.

Definition alloc (o : object) : Heap ref := fun h => Some (Ok (length h), h ++ [o]).

Definition get_array (r : ref) : Heap (list F) :=
  fun h => match nth_error h r with
           | Some (Ndarray data) => Some (Ok data, h)
           | _ => None
           end.

Definition get_point (r : ref) : Heap (ref * nat) :=
  fun h => match nth_error h r with
           | Some (PointObject c d _ _ _) => Some (Ok (c, d), h)
           | _ => None
           end.

(** [np.array(a)]: a copy of the array [a]. *)
Definition obj_np_array (a : ref) : Heap ref :=
  hbind (get_array a) (fun data => alloc (Ndarray data)).

(** [a + b], [a - b]: a new array. *)
Definition obj_ndarray_zip (f : F -> F -> F) (a b : ref) : Heap ref :=
  hbind (get_array a) (fun da =>
  hbind (get_array b) (fun db =>
  alloc (Ndarray (ndarray_zip f da db)))).

(** [a * k], [a / k]: a new array. *)
Definition obj_ndarray_map (f : F -> F) (a : ref) : Heap ref :=
  hbind (get_array a) (fun da => alloc (Ndarray (map f da))).

(** [Point(coordinates)]: [__init__] stores a copy of the array it is
    given and reads [x], [y], [z] from the argument. *)
Definition obj_Point (coords : ref) : Heap ref :=
  hbind (obj_np_array coords) (fun own =>
  hbind (get_array coords) (fun data =>
  let p := Point_init data in
  alloc (PointObject own (dimension p) (x p) (y p) (z p)))).

Definition obj_Point_add (self other : ref) : Heap ref :=
  hbind (get_point self) (fun s =>
  hbind (get_point other) (fun o =>
  if negb (snd s =? snd o) then hraise ValueError_same_dimension
  else hbind (obj_ndarray_zip s_add (fst s) (fst o)) obj_Point)).

Definition obj_Point_sub (self other : ref) : Heap ref :=
  hbind (get_point self) (fun s =>
  hbind (get_point other) (fun o =>
  if negb (snd s =? snd o) then hraise ValueError_same_dimension
  else hbind (obj_ndarray_zip s_sub (fst s) (fst o)) obj_Point)).

Definition obj_Point_mul (self : ref) (other : F) : Heap ref :=
  hbind (get_point self) (fun s =>
  hbind (obj_ndarray_map (fun c => s_mul c other) (fst s)) obj_Point).

Definition obj_Point_truediv (self : ref) (other : F) : Heap ref :=
  hbind (get_point self) (fun s =>
  hbind (obj_ndarray_map (fun c => s_div c other) (fst s)) obj_Point).

(** The value of the Point object at [r]. *)
Definition read_point (h : heap) (r : ref) : option Point :=
  match nth_error h r with
  | Some (PointObject c d ox oy oz) =>
      match nth_error h c with
      | Some (Ndarray data) => Some (mkPoint data d ox oy oz)
      | _ => None
      end
  | _ => None
  end.

(** What an operation that returns [r] in the store [h'] owes the
    store [h] it started from: every object of [h] is still there,
    unchanged; [r] and its coordinates array are new; and [r] holds
    the value [v]. *)
Definition returns_new (h h' : heap) (r : ref) (v : Point) : Prop :=
  (exists added, h' = h ++ added) /\
  nth_error h r = None /\
  (exists c d ox oy oz,
      nth_error h' r = Some (PointObject c d ox oy oz) /\ nth_error h c = None) /\
  read_point h' r = Some v.

End Objects.

(** ** Concrete clouds and stores *)

(** The scenarios of the specification, in binary64. *)
Definition unit_scenario : list spec_float :=
  map b64_of_Z [0; 0; 0; 1; 0; 0; 0; 1; 0]%Z.

Definition unit_cloud : PointCloud :=
  {| points := map Point_init (chunks 3 3 unit_scenario);
     cloud_dimension := 3; point_count := 3 |}.

Definition scaling_scenario : list spec_float :=
  map b64_of_Z [0; 0; 0; 2; 0; 0; 0; 0; 0]%Z.

Definition scaling_cloud : PointCloud :=
  {| points := map Point_init (chunks 3 3 scaling_scenario);
     cloud_dimension := 3; point_count := 3 |}.

(** A store with the Points (1, 2) and (3, 4), each with its array. *)
Definition two_points : @heap spec_float :=
  [Ndarray [b64_of_Z 1; b64_of_Z 2];
   PointObject 0 2 (Some (b64_of_Z 1)) (Some (b64_of_Z 2)) None;
   Ndarray [b64_of_Z 3; b64_of_Z 4];
   PointObject 2 2 (Some (b64_of_Z 3)) (Some (b64_of_Z 4)) None].

(** ** Further methods *)

Section MoreMethods.
Context {F : Type} `{Scalar F} `{FloatText F}.

(** [Point.__str__]: the coordinates' texts, joined by [", "], in
    parentheses. *)
Definition Point_str (self : Point) : string :=
  String.append "("
    (String.append (str_join ", " (map py_str (coordinates self))) ")").

(** [Point.__add__] of [src/point_tools/point_tools.py]. *)
Definition legacy_Point_add (self other : Point) : result Point :=
  if negb (dimension self =? dimension other)
  then Raise ValueError_same_dimension
  else
    new_coordinates <-
      mapM (fun i =>
              a <- ndarray_getitem (coordinates self) i ;;
              b <- ndarray_getitem (coordinates other) i ;;
              Ok (s_add a b))
           (range (dimension self)) ;;
    Ok (Point_init new_coordinates).

End MoreMethods.

(** ** [PointCloud.plot] *)

(** What [plot] raises: its own ValueError, the two ValueErrors of
    unpacking into three names, or the error of a call it makes. *)
Inductive PlotError : Type :=
| ValueError_plot_dimension     (* "Can only plot 3-dimensional point clouds" *)
| ValueError_unpack_not_enough  (* not enough values to unpack (expected 3, ..) *)
| ValueError_unpack_too_many    (* too many values to unpack (expected 3) *)
| Raised (e : PyError).

Section Plot.
Context {F : Type} `{Scalar F}.

(** A Point as [Point.__init__] leaves it, of [d] coordinates. *)
Definition well_shaped (d : nat) (p : @Point F) : Prop :=
  dimension p = d /\ length (coordinates p) = d.

(** A Point defines [__getitem__] and no [__iter__]: iterating it
    asks for the items 0, 1, 2, ... and ends at the first IndexError.
    [Point_next] is one step of that iteration. *)
Definition Point_next (self : Point) (key : Z) : result (option F) :=
  match Point_getitem self key with
  | Ok v => Ok (Some v)
  | Raise e =>
    match error_kind e with
    | IndexError => Ok None
    | ValueError => Raise e
    end
  end.

(** [x, y, z = coord]: three items are taken, and a fourth is asked
    for, which must not exist. *)
Definition unpack3 (coord : Point) : PlotError + (F * F * F) :=
  match Point_next coord 0 with
  | Raise e => inl (Raised e)
  | Ok None => inl ValueError_unpack_not_enough
  | Ok (Some vx) =>
    match Point_next coord 1 with
    | Raise e => inl (Raised e)
    | Ok None => inl ValueError_unpack_not_enough
    | Ok (Some vy) =>
      match Point_next coord 2 with
      | Raise e => inl (Raised e)
      | Ok None => inl ValueError_unpack_not_enough
      | Ok (Some vz) =>
        match Point_next coord 3 with
        | Raise e => inl (Raised e)
        | Ok (Some _) => inl ValueError_unpack_too_many
        | Ok None => inr (vx, vy, vz)
        end
      end
    end
  end.

(** The loop of [plot]: one [ax.scatter(x, y, z)] per point, in
    order; the result is the list of the triples scattered. *)
Fixpoint scatter_points (pts : list Point) : PlotError + list (F * F * F) :=
  match pts with
  | [] => inr []
  | coord :: rest =>
    match unpack3 coord with
    | inl e => inl e
    | inr xyz =>
      match scatter_points rest with
      | inl e => inl e
      | inr scattered => inr (xyz :: scattered)
      end
    end
  end.

(** [PointCloud.plot], as far as the cloud is concerned: the figure,
    the axis labels and [plt.show()] are left out, the calls of
    [scatter] are what is returned. *)
Definition plot (self : PointCloud) : PlotError + list (F * F * F) :=
  if negb (cloud_dimension self =? 3) then inl ValueError_plot_dimension
  else scatter_points (points self).

End Plot.

(** * Properties *)

(** ** Results and comprehensions *)

Lemma mapM_ext_in {A B} (f g : A -> result B) (l : list A) :
  (forall a, In a l -> f a = g a) -> mapM f l = mapM g l.
Proof.
  induction l as [|a l IH]; intros Hfg; simpl; [reflexivity|].
  rewrite (Hfg a (or_introl eq_refl)), IH; [reflexivity|].
  intros b Hb. apply Hfg. now right.
Qed.

Lemma mapM_pure {A B} (g : A -> B) (l : list A) :
  mapM (fun a => Ok (g a)) l = Ok (map g l).
Proof.
  induction l as [|a l IH]; simpl; [reflexivity|]. now rewrite IH.
Qed.

Lemma mapM_length {A B} (f : A -> result B) (l : list A) (bs : list B) :
  mapM f l = Ok bs -> length bs = length l.
Proof.
  revert bs. induction l as [|a l IH]; simpl; intros bs Hm.
  - now inversion Hm.
  - destruct (f a) as [b|e]; simpl in Hm; [|discriminate].
    destruct (mapM f l) as [bs'|e]; simpl in Hm; [|discriminate].
    inversion Hm; subst. simpl. now rewrite (IH bs' eq_refl).
Qed.

Lemma mapM_raise_at {A B} (f : A -> result B) (l1 l2 : list A) (a : A) (e : PyError) :
  is_ok (mapM f l1) = true -> f a = Raise e -> mapM f (l1 ++ a :: l2) = Raise e.
Proof.
  induction l1 as [|a1 l1 IH]; simpl; intros Hok Ha.
  - now rewrite Ha.
  - destruct (f a1) as [b|e1]; simpl in *; [|discriminate].
    destruct (mapM f l1) as [bs|e1] eqn:E; simpl in *; [|discriminate].
    now rewrite (IH eq_refl Ha).
Qed.

Lemma range_length (n : nat) : length (range n) = n.
Proof. unfold range. now rewrite length_map, length_seq. Qed.

Lemma in_range (n : nat) (k : Z) :
  In k (range n) <-> exists i, k = Z.of_nat i /\ i < n.
Proof.
  unfold range. rewrite in_map_iff. split.
  - intros (i & <- & Hi). apply in_seq in Hi. exists i. split; [reflexivity|lia].
  - intros (i & -> & Hi). exists i. split; [reflexivity|]. apply in_seq. lia.
Qed.

Lemma range_split (n m : nat) :
  n <= m -> range m = range n ++ map Z.of_nat (seq n (m - n)).
Proof.
  intros Hnm. unfold range. rewrite <- map_app. f_equal.
  replace m with (n + (m - n)) at 1 by lia. now rewrite seq_app.
Qed.

Section Facts.
Context {F : Type} `{ScalarLaws F}.

(** ** Indexing *)

Lemma ndarray_getitem_nat (a : list F) (i : nat) (v : F) :
  nth_error a i = Some v -> ndarray_getitem a (Z.of_nat i) = Ok v.
Proof.
  intros Hv. assert (Hi : i < length a) by (apply nth_error_Some; congruence).
  unfold ndarray_getitem.
  replace (Z.of_nat i <? - Z.of_nat (length a))%Z with false by (symmetry; apply Z.ltb_ge; lia).
  replace (Z.of_nat (length a) <=? Z.of_nat i)%Z with false by (symmetry; apply Z.leb_gt; lia).
  simpl. replace (Z.of_nat i <? 0)%Z with false by (symmetry; apply Z.ltb_ge; lia).
  now rewrite Nat2Z.id, Hv.
Qed.

Lemma ndarray_getitem_negative (a : list F) (key : Z) :
  (- Z.of_nat (length a) <= key < 0)%Z ->
  exists v, nth_error a (Z.to_nat (Z.of_nat (length a) + key)) = Some v /\
            ndarray_getitem a key = Ok v.
Proof.
  intros Hk.
  destruct (nth_error a (Z.to_nat (Z.of_nat (length a) + key))) as [v|] eqn:E.
  - exists v. split; [reflexivity|]. unfold ndarray_getitem.
    replace (key <? - Z.of_nat (length a))%Z with false by (symmetry; apply Z.ltb_ge; lia).
    replace (Z.of_nat (length a) <=? key)%Z with false by (symmetry; apply Z.leb_gt; lia).
    simpl. replace (key <? 0)%Z with true by (symmetry; apply Z.ltb_lt; lia).
    now rewrite Z.add_comm, E.
  - apply nth_error_None in E. lia.
Qed.

Lemma Point_getitem_nat (coords : list F) (i : nat) (v : F) :
  nth_error coords i = Some v ->
  Point_getitem (Point_init coords) (Z.of_nat i) = Ok v.
Proof.
  intros Hv. assert (Hi : i < length coords) by (apply nth_error_Some; congruence).
  unfold Point_getitem. simpl.
  replace (Z.of_nat i >? Z.of_nat (length coords) - 1)%Z with false
    by (symmetry; rewrite Z.gtb_ltb; apply Z.ltb_ge; lia).
  now apply ndarray_getitem_nat.
Qed.

Lemma Point_getitem_beyond (coords : list F) (i : nat) :
  length coords <= i ->
  Point_getitem (Point_init coords) (Z.of_nat i) = Raise IndexError_out_of_range.
Proof.
  intros Hi. unfold Point_getitem. simpl.
  now replace (Z.of_nat i >? Z.of_nat (length coords) - 1)%Z with true
    by (symmetry; rewrite Z.gtb_ltb; apply Z.ltb_lt; lia).
Qed.

End Facts.

(** ** Distance *)

Section DistanceFacts.
Context {F : Type} `{ScalarLaws F}.


Lemma skipn_nth_error (A : Type) (l : list A) (k : nat) (u : A) :
  nth_error l k = Some u -> skipn k l = u :: skipn (S k) l.
Proof.
  revert l. induction k as [|k IH]; intros [|x l] Hk; simpl in *; try discriminate.
  - now inversion Hk.
  - now apply IH.
Qed.

Lemma combine_firstn_r (A B : Type) (a : list A) (b : list B) :
  combine a (firstn (length a) b) = combine a b.
Proof.
  revert b. induction a as [|u a IH]; intros [|v b]; simpl; try reflexivity.
  now rewrite IH.
Qed.

Lemma squared_differences_seq (A B : list F) (n k : nat) :
  k + n <= length A -> k + n <= length B ->
  mapM (fun i =>
          a <- Point_getitem (Point_init A) i ;;
          b <- Point_getitem (Point_init B) i ;;
          Ok (s_mul (s_sub a b) (s_sub a b)))
       (map Z.of_nat (seq k n))
  = Ok (ndarray_zip sq_diff (firstn n (skipn k A)) (firstn n (skipn k B))).
Proof.
  revert k. induction n as [|n IH]; intros k HA HB; [reflexivity|].
  destruct (nth_error A k) as [u|] eqn:Eu; [|apply nth_error_None in Eu; lia].
  destruct (nth_error B k) as [v|] eqn:Ev; [|apply nth_error_None in Ev; lia].
  cbn [seq map mapM].
  rewrite (Point_getitem_nat _ _ Eu), (Point_getitem_nat _ _ Ev). cbn [bind].
  rewrite IH by lia. cbn [bind].
  rewrite (skipn_nth_error _ _ Eu), (skipn_nth_error _ _ Ev).
  reflexivity.
Qed.

Lemma squared_differences_le (a b : list F) :
  length a <= length b ->
  squared_differences (Point_init a) (Point_init b) = Ok (ndarray_zip sq_diff a b).
Proof.
  intros Hab. unfold squared_differences, range. cbn [dimension Point_init].
  rewrite squared_differences_seq by lia. cbn [skipn].
  rewrite firstn_all. unfold ndarray_zip. now rewrite combine_firstn_r.
Qed.

Lemma squared_differences_short (a b : list F) :
  length b < length a ->
  squared_differences (Point_init a) (Point_init b) = Raise IndexError_out_of_range.
Proof.
  intros Hab. unfold squared_differences. cbn [dimension Point_init].
  rewrite (@range_split (length b) (length a)) by lia.
  destruct (length a - length b) as [|m] eqn:Em; [lia|]. cbn [seq map].
  apply mapM_raise_at.
  - unfold range. now rewrite squared_differences_seq by lia.
  - destruct (nth_error a (length b)) as [u|] eqn:Eu; [|apply nth_error_None in Eu; lia].
    rewrite (Point_getitem_nat _ _ Eu). cbn [bind].
    now rewrite Point_getitem_beyond.
Qed.

Lemma fold_add_not_neg (ts : list F) (acc : F) :
  s_ltb acc s_zero = false ->
  Forall (fun t => s_ltb t s_zero = false) ts ->
  s_ltb (fold_left s_add ts acc) s_zero = false.
Proof.
  revert acc. induction ts as [|t ts IH]; intros acc Hacc Hts; simpl; [exact Hacc|].
  inversion Hts; subst. apply IH; [|assumption]. now apply add_not_neg.
Qed.

Lemma py_sum_not_neg (ts : list F) :
  Forall (fun t => s_ltb t s_zero = false) ts -> s_ltb (py_sum ts) s_zero = false.
Proof. apply fold_add_not_neg, zero_not_neg. Qed.

Lemma sq_diffs_not_neg (a b : list F) :
  Forall (fun t => s_ltb t s_zero = false) (ndarray_zip sq_diff a b).
Proof.
  unfold ndarray_zip. apply Forall_forall. intros t Ht.
  apply in_map_iff in Ht. destruct Ht as (ab & <- & _). apply sq_not_neg.
Qed.

Lemma distance_le (a b : list F) :
  length a <= length b ->
  distance (Point_init a) (Point_init b) = Ok (euclid a b).
Proof.
  intros Hab. unfold distance. rewrite squared_differences_le by assumption.
  cbn [bind]. unfold math_sqrt.
  now rewrite py_sum_not_neg by apply sq_diffs_not_neg.
Qed.

Lemma distance_short (a b : list F) :
  length b < length a ->
  distance (Point_init a) (Point_init b) = Raise IndexError_out_of_range.
Proof.
  intros Hab. unfold distance. now rewrite squared_differences_short.
Qed.

Lemma combine_repeat_r (A B : Type) (a : list A) (v : B) (n : nat) :
  length a <= n -> combine a (repeat v n) = combine a (repeat v (length a)).
Proof.
  revert n. induction a as [|u a IH]; intros [|n] Hn; simpl in *; try reflexivity; try lia.
  f_equal. apply IH. lia.
Qed.

End DistanceFacts.

(** ** binary64 satisfies the laws *)


Lemma SFltb_zero (x : spec_float) :
  SFltb x (S754_zero false) = negb (not_neg x).
Proof. destruct x as [s|s| |s m e]; try destruct s; reflexivity. Qed.

Lemma binary_round_aux_not_neg (m e : Z) (l : location) :
  not_neg (binary_round_aux prec emax false m e l) = true.
Proof.
  unfold binary_round_aux.
  destruct (shr_fexp prec emax m e l) as [mrs' e'].
  destruct (shr_fexp prec emax _ e' loc_Exact) as [mrs'' e''].
  destruct (shr_m mrs''); [reflexivity| |reflexivity].
  destruct (e'' <=? emax - prec)%Z; reflexivity.
Qed.

Lemma binary_round_not_neg (m : positive) (e : Z) :
  not_neg (binary_round prec emax false m e) = true.
Proof.
  unfold binary_round. destruct (shl_align m e _) as [mz ez].
  apply binary_round_aux_not_neg.
Qed.

Lemma SFmul_self_not_neg (x : spec_float) : not_neg (SFmul prec emax x x) = true.
Proof.
  destruct x as [s|s| |s m e]; try destruct s; try reflexivity;
    apply binary_round_aux_not_neg.
Qed.

Lemma SFadd_not_neg (a b : spec_float) :
  not_neg a = true -> not_neg b = true -> not_neg (SFadd prec emax a b) = true.
Proof.
  destruct a as [sa|sa| |sa ma ea]; destruct b as [sb|sb| |sb mb eb];
    try destruct sa; try destruct sb; try reflexivity; try discriminate.
  intros _ _. cbn [SFadd cond_Zopp Z.add binary_normalize].
  apply binary_round_not_neg.
Qed.

#[export] Instance binary64_laws : @ScalarLaws spec_float binary64.
Proof.
  split.
  - reflexivity.
  - intros x. cbn [s_ltb s_mul s_zero binary64].
    now rewrite SFltb_zero, SFmul_self_not_neg.
  - intros a b. cbn [s_ltb s_add s_zero binary64].
    rewrite !SFltb_zero, !negb_false_iff. apply SFadd_not_neg.
Qed.

(** ** Reshaping *)

Section CloudFacts.
Context {F : Type} `{ScalarLaws F}.

Lemma chunks_length (cols rows : nat) (l : list F) :
  length (chunks cols rows l) = rows.
Proof.
  revert l. induction rows as [|rows IH]; intros l; simpl; [reflexivity|].
  now rewrite IH.
Qed.

Lemma chunks_row_length (cols rows : nat) (l : list F) :
  length l = rows * cols ->
  Forall (fun r => length r = cols) (chunks cols rows l).
Proof.
  revert l. induction rows as [|rows IH]; intros l Hl; simpl; constructor.
  - rewrite length_firstn. simpl in Hl. lia.
  - apply IH. rewrite length_skipn. simpl in Hl. lia.
Qed.

Lemma chunks_concat (cols rows : nat) (l : list F) :
  length l = rows * cols -> concat (chunks cols rows l) = l.
Proof.
  revert l. induction rows as [|rows IH]; intros l Hl; simpl.
  - destruct l; [reflexivity|discriminate].
  - rewrite IH; [apply firstn_skipn|]. rewrite length_skipn. simpl in Hl. lia.
Qed.

(** Row-major order: coordinate [j] of point [i] is item [i * cols + j]
    of the flat sequence. *)
Lemma chunks_nth_error (cols rows : nat) (l : list F) (i j : nat) :
  length l = rows * cols -> i < rows -> j < cols ->
  nth_error (nth i (chunks cols rows l) []) j = nth_error l (i * cols + j).
Proof.
  revert l i. induction rows as [|rows IH]; intros l i Hl Hi Hj; [lia|].
  destruct i as [|i]; simpl.
  - rewrite nth_error_firstn.
    now replace (j <? cols) with true by (symmetry; apply Nat.ltb_lt; lia).
  - rewrite IH; [|rewrite length_skipn; simpl in Hl; lia|lia|lia].
    rewrite nth_error_skipn. f_equal. lia.
Qed.

Lemma flat_map_coordinates_init (rows : list (list F)) :
  flat_map coordinates (map Point_init rows) = concat rows.
Proof.
  induction rows as [|r rows IH]; simpl; [reflexivity|]. now rewrite IH.
Qed.

(** ** Normalisation on rows *)

Lemma mapM_map {A B C} (g : A -> B) (f : B -> result C) (l : list A) :
  mapM f (map g l) = mapM (fun a => f (g a)) l.
Proof.
  induction l as [|a l IH]; simpl; [reflexivity|]. now rewrite IH.
Qed.

Lemma ndarray_zip_length (f : F -> F -> F) (a b : list F) :
  length a = length b -> length (ndarray_zip f a b) = length a.
Proof.
  intros Hab. unfold ndarray_zip. rewrite length_map, length_combine. lia.
Qed.


Lemma normalised_row_length (r0 r : list F) (m : F) :
  length r = length r0 -> length (normalised_row r0 m r) = length r.
Proof.
  intros Hr. unfold normalised_row. rewrite length_map. now apply ndarray_zip_length.
Qed.

Lemma distances_rows (cols : nat) (r0 : list F) (rs : list (list F)) :
  length r0 = cols -> Forall (fun r => length r = cols) rs ->
  mapM (fun point => distance point (Point_init r0)) (map Point_init rs)
  = Ok (map (fun r => euclid r r0) rs).
Proof.
  intros Hr0 Hrs. rewrite mapM_map, <- mapM_pure. apply mapM_ext_in.
  intros r Hr. apply distance_le. rewrite Forall_forall in Hrs.
  rewrite (Hrs r Hr). lia.
Qed.

Lemma shift_scale_rows (cols : nat) (r0 : list F) (m : F) (rs : list (list F)) :
  length r0 = cols -> Forall (fun r => length r = cols) rs ->
  mapM (fun point =>
          shifted <- Point_sub point (Point_init r0) ;;
          Point_truediv shifted m)
       (map Point_init rs)
  = Ok (map (fun r => Point_init (normalised_row r0 m r)) rs).
Proof.
  intros Hr0 Hrs. rewrite mapM_map, <- mapM_pure. apply mapM_ext_in.
  intros r Hr. rewrite Forall_forall in Hrs. specialize (Hrs r Hr).
  unfold Point_sub. cbn [dimension Point_init].
  replace (length r =? length r0) with true by (symmetry; apply Nat.eqb_eq; lia).
  reflexivity.
Qed.

(** [normalise] on a cloud built from rows of one length. *)
Lemma normalise_rows (cols n : nat) (r0 : list F) (rs : list (list F)) :
  Forall (fun r => length r = cols) (r0 :: rs) ->
  normalise {| points := map Point_init (r0 :: rs);
               cloud_dimension := cols; point_count := n |}
  = max_distance <- py_max (map (fun r => euclid r r0) rs) ;;
    Ok {| points := map (fun r => Point_init (normalised_row r0 max_distance r)) (r0 :: rs);
          cloud_dimension := cols; point_count := n |}.
Proof.
  intros Hall. inversion Hall as [|? ? Hr0 Hrs]; subst.
  unfold normalise. cbn [points map bind tl cloud_dimension point_count].
  rewrite (@distances_rows (length r0) r0 rs eq_refl Hrs). cbn [bind].
  destruct (py_max _) as [m|e]; [|reflexivity]. cbn [bind].
  change (Point_init r0 :: map Point_init rs) with (map Point_init (r0 :: rs)).
  now rewrite (@shift_scale_rows (length r0) r0 m (r0 :: rs) eq_refl Hall).
Qed.


Lemma max_distance_from_first_rows (cols n : nat) (r0 : list F) (rs : list (list F)) :
  Forall (fun r => length r = cols) (r0 :: rs) ->
  max_distance_from_first {| points := map Point_init (r0 :: rs);
                             cloud_dimension := cols; point_count := n |}
  = py_max (map (fun r => euclid r r0) rs).
Proof.
  intros Hall. inversion Hall as [|? ? Hr0 Hrs]; subst.
  unfold max_distance_from_first. cbn [points map bind tl].
  now rewrite (@distances_rows (length r0) r0 rs eq_refl Hrs).
Qed.

Lemma normalised_rows_length (cols : nat) (r0 : list F) (m : F) (rs : list (list F)) :
  length r0 = cols -> Forall (fun r => length r = cols) rs ->
  Forall (fun r => length r = cols) (map (normalised_row r0 m) rs).
Proof.
  intros Hr0 Hrs. apply Forall_map. revert Hrs. apply Forall_impl.
  intros r Hr. rewrite normalised_row_length; lia.
Qed.

End CloudFacts.

(** ** binary64: the first point after normalisation, division by zero *)


Lemma SFsub_self (x : spec_float) :
  is_finite x = true -> SFsub prec emax x x = S754_zero false.
Proof.
  destruct x as [s|s| |s m e]; try discriminate; intros _.
  - now destruct s.
  - cbn [SFsub]. now rewrite Z.sub_diag.
Qed.

Lemma SFdiv_zero_l (m : spec_float) :
  SFltb (S754_zero false) m = true ->
  SFdiv prec emax (S754_zero false) m = S754_zero false.
Proof. destruct m as [s|s| |s mm e]; try destruct s; try discriminate; reflexivity. Qed.

Lemma SFdiv_zero_r (x : spec_float) (s : bool) :
  is_inf_or_nan (SFdiv prec emax x (S754_zero s)) = true.
Proof. destruct x as [sx|sx| |sx m e]; reflexivity. Qed.

Lemma b64_normalised_row_origin (r0 : list spec_float) (m : spec_float) :
  forallb is_finite r0 = true -> s_ltb s_zero m = true ->
  normalised_row r0 m r0 = np_zeros (length r0).
Proof.
  intros Hfin Hm. unfold normalised_row, ndarray_zip, np_zeros.
  induction r0 as [|u r0 IH]; [reflexivity|].
  cbn [forallb] in Hfin. apply andb_prop in Hfin. destruct Hfin as [Hu Hfin].
  cbn [combine map fst snd length repeat]. rewrite (IH Hfin). f_equal.
  cbn [s_div s_sub s_zero binary64]. rewrite (SFsub_self _ Hu).
  now apply SFdiv_zero_l.
Qed.

(** ** Joining and splitting *)


Lemma append_assoc (a b c : string) :
  String.append (String.append a b) c = String.append a (String.append b c).
Proof. induction a as [|x a IH]; simpl; [reflexivity|]. now rewrite IH. Qed.

Lemma append_nil_r (a : string) : String.append a EmptyString = a.
Proof. induction a as [|x a IH]; simpl; [reflexivity|]. now rewrite IH. Qed.

Lemma prefix_append (sep rest : string) :
  String.prefix sep (String.append sep rest) = true.
Proof.
  induction sep as [|c sep IH]; simpl; [now destruct rest|].
  destruct (ascii_dec c c); [exact IH|congruence].
Qed.

Lemma split_scan_skip (sep x rest cur : string) :
  split_scan sep (String.append x rest) (String.length x) cur
  = split_scan sep rest 0 cur.
Proof. induction x as [|c x IH]; simpl; [now destruct rest|exact IH]. Qed.

Lemma split_scan_separator (c0 : ascii) (sep' rest cur : string) :
  split_scan (String c0 sep') (String.append (String c0 sep') rest) 0 cur
  = cur :: split_scan (String c0 sep') rest 0 EmptyString.
Proof.
  cbn [String.append split_scan].
  change (String c0 (String.append sep' rest))
    with (String.append (String c0 sep') rest).
  rewrite prefix_append. f_equal.
  replace (String.length (String c0 sep') - 1) with (String.length sep')
    by (cbn [String.length]; lia).
  apply split_scan_skip.
Qed.

Lemma split_scan_token (c0 : ascii) (sep' t rest cur : string) :
  contains_char c0 t = false ->
  split_scan (String c0 sep') (String.append t rest) 0 cur
  = split_scan (String c0 sep') rest 0 (String.append cur t).
Proof.
  revert cur. induction t as [|c t IH]; intros cur Ht.
  - now rewrite append_nil_r.
  - cbn [contains_char] in Ht. apply orb_false_elim in Ht. destruct Ht as [Hc Ht].
    cbn [String.append split_scan String.prefix].
    destruct (ascii_dec c0 c) as [->|_]; [now rewrite Ascii.eqb_refl in Hc|].
    rewrite (IH _ Ht). now rewrite append_assoc.
Qed.

Lemma split_scan_join (c0 : ascii) (sep' : string) (ts : list string) (t cur : string) :
  Forall (fun t => contains_char c0 t = false) (t :: ts) ->
  split_scan (String c0 sep') (str_join (String c0 sep') (t :: ts)) 0 cur
  = String.append cur t :: ts.
Proof.
  revert t cur. induction ts as [|t2 ts IH]; intros t cur Hall;
    inversion Hall as [|? ? Ht Hts]; subst.
  - cbn [str_join]. rewrite <- (append_nil_r t) at 1.
    now rewrite split_scan_token.
  - change (str_join (String c0 sep') (t :: t2 :: ts))
      with (String.append t (String.append (String c0 sep')
                                           (str_join (String c0 sep') (t2 :: ts)))).
    rewrite split_scan_token by assumption.
    rewrite split_scan_separator. now rewrite (IH t2 EmptyString Hts).
Qed.

(** Splitting what was joined gives the pieces back, when there is at
    least one piece and the first character of the separator occurs in
    none of them. *)
Lemma str_split_join (c0 : ascii) (sep' : string) (ts : list string) :
  ts <> [] -> Forall (fun t => contains_char c0 t = false) ts ->
  str_split (str_join (String c0 sep') ts) (String c0 sep') = Ok ts.
Proof.
  intros Hne Hall. destruct ts as [|t ts]; [congruence|].
  unfold str_split. now rewrite split_scan_join.
Qed.

(** ** Serialisation and back *)

Section RoundTrip.
Context {F : Type} `{Scalar F} `{FloatText F}.

Lemma mapM_py_float_str (coords : list F) :
  Forall (fun c => py_float (py_str c) = Ok c) coords ->
  mapM py_float (map py_str coords) = Ok coords.
Proof.
  induction 1 as [|c coords Hc _ IH]; [reflexivity|].
  cbn [map mapM]. rewrite Hc. cbn [bind]. now rewrite IH.
Qed.

Lemma csv_repr_init (raw : list F) (dimension point_count : nat) (c : PointCloud)
  (delimiter : string) :
  PointCloud_init raw dimension point_count false = Ok c ->
  csv_repr c delimiter = str_join delimiter (map py_str raw).
Proof.
  unfold PointCloud_init, ndarray_reshape.
  destruct (length raw =? point_count * dimension) eqn:E; [|discriminate].
  cbn [bind]. intros Hc. inversion Hc; subst. unfold csv_repr. cbn [points].
  rewrite flat_map_coordinates_init, chunks_concat; [reflexivity|].
  now apply Nat.eqb_eq.
Qed.

Lemma from_csv_line_csv_repr (raw : list F) (dimension point_count : nat)
  (c : PointCloud) (c0 : ascii) (sep' : string) :
  PointCloud_init raw dimension point_count false = Ok c ->
  raw <> [] ->
  Forall (fun x => py_float (py_str x) = Ok x) raw ->
  Forall (fun x => contains_char c0 (py_str x) = false) raw ->
  from_csv_line (csv_repr c (String c0 sep')) (String c0 sep')
                dimension point_count false = Ok c.
Proof.
  intros Hc Hne Hrt Hsep. erewrite csv_repr_init by exact Hc.
  unfold from_csv_line. rewrite str_split_join.
  - cbn [bind]. rewrite mapM_py_float_str by assumption. exact Hc.
  - destruct raw; [congruence|discriminate].
  - apply Forall_map. exact Hsep.
Qed.

End RoundTrip.

(** ** The text of a binary64 number holds no comma *)

Lemma contains_char_append (c : ascii) (a b : string) :
  contains_char c (String.append a b) = contains_char c a || contains_char c b.
Proof.
  induction a as [|u a IH]; simpl; [reflexivity|]. now rewrite IH, orb_assoc.
Qed.

Lemma digit_char_no_comma (d : Z) :
  (0 <= d < 10)%Z -> Ascii.eqb ","%char (digit_char d) = false.
Proof.
  intros Hd.
  assert (E : (d = 0 \/ d = 1 \/ d = 2 \/ d = 3 \/ d = 4 \/ d = 5 \/ d = 6 \/
               d = 7 \/ d = 8 \/ d = 9)%Z) by lia.
  repeat (destruct E as [->|E]; [reflexivity|]). now subst.
Qed.

Lemma decimal_digits_no_comma (fuel : nat) (n : Z) (acc : string) :
  contains_char ","%char acc = false ->
  contains_char ","%char (decimal_digits fuel n acc) = false.
Proof.
  revert n acc. induction fuel as [|fuel IH]; intros n acc Hacc; [exact Hacc|].
  cbn [decimal_digits].
  assert (Hacc' : contains_char ","%char (String (digit_char (n mod 10)) acc) = false).
  { cbn [contains_char]. rewrite digit_char_no_comma, Hacc; [reflexivity|].
    apply Z.mod_pos_bound. lia. }
  destruct (n <? 10)%Z; [exact Hacc'|]. now apply IH.
Qed.

Lemma string_of_nonneg_no_comma (n : Z) :
  contains_char ","%char (string_of_nonneg n) = false.
Proof. now apply decimal_digits_no_comma. Qed.

Lemma zeros_no_comma (n : nat) : contains_char ","%char (zeros n) = false.
Proof. induction n as [|n IH]; [reflexivity|exact IH]. Qed.

Lemma string_take_no_comma (n : nat) (s : string) :
  contains_char ","%char s = false -> contains_char ","%char (string_take n s) = false.
Proof.
  revert s. induction n as [|n IH]; intros [|c s] Hs; try reflexivity.
  cbn [contains_char string_take] in *. apply orb_false_elim in Hs. destruct Hs as [Hc Hs].
  now rewrite Hc, IH.
Qed.

Lemma string_drop_no_comma (n : nat) (s : string) :
  contains_char ","%char s = false -> contains_char ","%char (string_drop n s) = false.
Proof.
  revert s. induction n as [|n IH]; intros [|c s] Hs; try exact Hs.
  cbn [contains_char string_drop] in *. apply orb_false_elim in Hs. now apply IH.
Qed.

Lemma format_digits_no_comma (digits : string) (decpt : Z) :
  contains_char ","%char digits = false ->
  contains_char ","%char (format_digits digits decpt) = false.
Proof.
  intros Hd. unfold format_digits.
  destruct ((-4 <? decpt) && (decpt <=? 16))%Z.
  - destruct (decpt <=? 0)%Z; [|destruct (_ <=? decpt)%Z];
      rewrite ?contains_char_append, ?zeros_no_comma, ?Hd,
        ?string_take_no_comma, ?string_drop_no_comma by assumption;
      reflexivity.
  - rewrite !contains_char_append.
    assert (Hm : contains_char ","%char
                   match digits with
                   | String c EmptyString => digits
                   | String c (String _ _ as rest) => String c (String.append "." rest)
                   | EmptyString => digits
                   end = false).
    { destruct digits as [|c [|c2 rest]]; exact Hd. }
    rewrite Hm.
    assert (He : forall e, contains_char ","%char
                   (if (e <? 10)%Z then String "0"%char (string_of_nonneg e)
                    else string_of_nonneg e) = false).
    { intros e. destruct (e <? 10)%Z; cbn [contains_char];
        now rewrite ?string_of_nonneg_no_comma. }
    rewrite He. now destruct (decpt - 1 <? 0)%Z.
Qed.

Lemma b64_str_no_comma (x : spec_float) : contains_char ","%char (b64_str x) = false.
Proof.
  destruct x as [s|s| |s m e]; try (destruct s; reflexivity); try reflexivity.
  unfold b64_str.
  destruct (if (0 <=? e)%Z then _ else _) as [num den].
  destruct (shortest_from _ _ _ _ _ _) as [d t].
  destruct (strip_zeros _ _ _) as [d' t'].
  pose proof (@format_digits_no_comma (string_of_nonneg d')
                (Z.of_nat (String.length (string_of_nonneg d')) + t')
                (string_of_nonneg_no_comma d')) as Hf.
  destruct s; [cbn [contains_char]; now rewrite Hf|exact Hf].
Qed.

(** ** Objects: lemmas *)

Section ObjectLemmas.
Context {F : Type} `{Scalar F}.

Lemma read_point_extend (h added : @heap F) (r : ref) (p : @Point F) :
  read_point h r = Some p -> read_point (h ++ added) r = Some p.
Proof.
  unfold read_point. intros Hr.
  destruct (nth_error h r) as [[|c d ox oy oz]|] eqn:E; try discriminate.
  destruct (nth_error h c) as [[data|]|] eqn:Ec; try discriminate.
  rewrite (nth_error_app1 h added) by (apply nth_error_Some; congruence).
  rewrite E.
  rewrite (nth_error_app1 h added) by (apply nth_error_Some; congruence).
  now rewrite Ec.
Qed.

Lemma nth_error_snoc (A : Type) (l : list A) (a : A) :
  nth_error (l ++ [a]) (length l) = Some a.
Proof. rewrite nth_error_app2 by lia. now rewrite Nat.sub_diag. Qed.

(** [Point(a)] for an array [a] of the store. *)
Lemma obj_Point_spec (h : @heap F) (a : ref) (data : list F) :
  nth_error h a = Some (Ndarray data) ->
  exists r h',
    obj_Point a h = Some (Ok r, h') /\
    (exists added, h' = h ++ added) /\
    r = S (length h) /\
    (exists c d ox oy oz,
        nth_error h' r = Some (PointObject c d ox oy oz) /\ c = length h) /\
    read_point h' r = Some (Point_init data).
Proof.
  intros Ha.
  exists (S (length h)),
    ((h ++ [Ndarray data]) ++
     [PointObject (length h) (dimension (Point_init data)) (x (Point_init data))
                  (y (Point_init data)) (z (Point_init data))]).
  assert (Ha' : nth_error (h ++ [Ndarray data]) a = Some (Ndarray data)).
  { rewrite nth_error_app1 by (apply nth_error_Some; congruence). exact Ha. }
  assert (Hlen : length (h ++ [Ndarray data]) = S (length h))
    by (rewrite length_app; simpl; lia).
  split; [|split; [|split; [|split]]].
  - unfold obj_Point, obj_np_array, hbind, get_array, alloc.
    rewrite Ha, Ha'. now rewrite Hlen.
  - eexists. now rewrite <- app_assoc.
  - reflexivity.
  - do 5 eexists. split; [|reflexivity].
    rewrite <- Hlen. apply nth_error_snoc.
  - unfold read_point. rewrite <- Hlen at 1. rewrite nth_error_snoc.
    rewrite nth_error_app1 by (rewrite Hlen; lia).
    now rewrite nth_error_snoc.
Qed.

(** An operation that builds a fresh array from the operands and wraps
    it in a Point returns a new object. *)
Lemma wrap_fresh_array (h : @heap F) (data : list F) :
  exists r h',
    hbind (alloc (Ndarray data)) obj_Point h = Some (Ok r, h') /\
    returns_new h h' r (Point_init data).
Proof.
  destruct (@obj_Point_spec (h ++ [Ndarray data]) (length h) data (nth_error_snoc h _))
    as (r & h' & Hrun & (added & Hadd) & Hr & (c & d & ox & oy & oz & Hobj & Hc) & Hread).
  exists r, h'. split.
  - unfold hbind at 1. unfold alloc at 1. exact Hrun.
  - assert (Hlen : length (h ++ [Ndarray data]) = S (length h))
      by (rewrite length_app; simpl; lia).
    repeat split.
    + exists ([Ndarray data] ++ added). now rewrite app_assoc.
    + apply nth_error_None. lia.
    + exists c, d, ox, oy, oz. split; [exact Hobj|]. apply nth_error_None. lia.
    + exact Hread.
Qed.

End ObjectLemmas.

(** * The claims *)

(** ** Point: indexing, division, distance *)

(** C10.  For a Point of dimension [d >= 1] and a key with
    [-d <= key < 0], indexing does not fail: it returns the coordinate
    at position [d + key]. *)
Theorem C10_negative_key_counts_from_end
  {F : Type} `{Scalar F} (coords : list F) (key : Z) :
  (- Z.of_nat (dimension (Point_init coords)) <= key < 0)%Z ->
  exists v,
    nth_error coords (Z.to_nat (Z.of_nat (dimension (Point_init coords)) + key)) = Some v /\
    Point_getitem (Point_init coords) key = Ok v.
Proof.
  cbn [dimension Point_init]. intros Hk.
  destruct (ndarray_getitem_negative coords Hk) as (v & Hv & Hget).
  exists v. split; [exact Hv|]. unfold Point_getitem. cbn [dimension coordinates Point_init].
  replace (key >? Z.of_nat (length coords) - 1)%Z with false; [exact Hget|].
  symmetry. rewrite Z.gtb_ltb. apply Z.ltb_ge. lia.
Qed.

Lemma C10_witness :
  exists v,
    nth_error [b64_of_Z 7; b64_of_Z 8; b64_of_Z 9] 2 = Some v /\
    Point_getitem (Point_init [b64_of_Z 7; b64_of_Z 8; b64_of_Z 9]) (-1) = Ok v.
Proof.
  apply (@C10_negative_key_counts_from_end spec_float binary64
           [b64_of_Z 7; b64_of_Z 8; b64_of_Z 9] (-1)%Z).
  simpl. lia.
Defined.

(** C5 (as stated: dividing by 0 fails).  What the code does: dividing
    a Point by zero raises nothing; it returns a Point of the same
    dimension whose coordinates are all infinities or NaN. *)
Theorem C5_division_by_zero_returns_inf_nan (coords : list spec_float) (s : bool) :
  exists q,
    Point_truediv (Point_init coords) (S754_zero s) = Ok q /\
    dimension q = dimension (Point_init coords) /\
    forallb is_inf_or_nan (coordinates q) = true.
Proof.
  eexists. split; [reflexivity|]. cbn [dimension coordinates Point_init]. split.
  - apply length_map.
  - apply forallb_forall. intros c Hc. apply in_map_iff in Hc.
    destruct Hc as (u & <- & _). apply SFdiv_zero_r.
Qed.

(** C5, counterexample: [Point([1, 0, -1]) / 0.0] is the Point
    [(inf, nan, -inf)], not an error. *)
Lemma C5_counterexample :
  Point_truediv (Point_init [b64_of_Z 1; b64_of_Z 0; b64_of_Z (-1)]) (S754_zero false)
  = Ok (Point_init [S754_infinity false; S754_nan; S754_infinity true]).
Proof. reflexivity. Qed.

(** C3 (as stated: different dimensions fail with a dimension-mismatch
    error).  What the code does: [distance(a, b)] fails exactly when
    [b] has fewer coordinates than [a], and then with the IndexError of
    indexing; otherwise, so in particular for equal dimensions, it
    returns the square root of the sum of the squared differences over
    the coordinates of [a], leaving further coordinates of [b] unread. *)
Theorem C3_distance_by_dimensions
  {F : Type} `{ScalarLaws F} (a b : list F) :
  (dimension (Point_init b) < dimension (Point_init a) ->
   distance (Point_init a) (Point_init b) = Raise IndexError_out_of_range) /\
  (dimension (Point_init a) <= dimension (Point_init b) ->
   distance (Point_init a) (Point_init b)
   = Ok (s_sqrt (py_sum (ndarray_zip (fun u v => s_mul (s_sub u v) (s_sub u v)) a b)))).
Proof.
  cbn [dimension Point_init]. split; intros Hd.
  - now apply distance_short.
  - now apply distance_le.
Qed.

Lemma C3_witness :
  distance (Point_init [b64_of_Z 3; b64_of_Z 4]) (Point_init [b64_of_Z 0; b64_of_Z 0])
  = Ok (s_sqrt (py_sum (ndarray_zip (fun u v => s_mul (s_sub u v) (s_sub u v))
                                    [b64_of_Z 3; b64_of_Z 4] [b64_of_Z 0; b64_of_Z 0]))).
Proof.
  apply (proj2 (@C3_distance_by_dimensions spec_float binary64 binary64_laws
                  [b64_of_Z 3; b64_of_Z 4] [b64_of_Z 0; b64_of_Z 0])).
  simpl. lia.
Defined.

(** C3, counterexample: a 1-dimensional and a 2-dimensional Point have
    a distance (here 0.0), and with the arguments swapped the failure
    is an IndexError. *)
Lemma C3_counterexample :
  dimension (Point_init [b64_of_Z 0]) <> dimension (Point_init [b64_of_Z 0; b64_of_Z 5]) /\
  distance (Point_init [b64_of_Z 0]) (Point_init [b64_of_Z 0; b64_of_Z 5])
  = Ok (S754_zero false) /\
  distance (Point_init [b64_of_Z 0; b64_of_Z 5]) (Point_init [b64_of_Z 0])
  = Raise IndexError_out_of_range.
Proof. split; [discriminate|split; reflexivity]. Qed.

(** C4 (as stated: the default reference point has the caller's
    dimension).  What the code does: the default is the 3-dimensional
    origin.  For a Point of at most 3 dimensions [distance(a)] is its
    distance from the zero vector of its own dimension; for more than
    3 dimensions the call fails with an IndexError. *)
Theorem C4_distance_default_is_3d_origin
  {F : Type} `{ScalarLaws F} (a : list F) :
  (dimension (Point_init a) <= 3 ->
   distance1 (Point_init a) = distance (Point_init a) (Origin (dimension (Point_init a))) /\
   distance1 (Point_init a) = Ok (euclid a (np_zeros (dimension (Point_init a))))) /\
  (3 < dimension (Point_init a) ->
   distance1 (Point_init a) = Raise IndexError_out_of_range).
Proof.
  cbn [dimension Point_init]. unfold distance1, distance_point2_default, Origin.
  assert (Hz : forall n, length (@np_zeros F _ n) = n)
    by (intros n; apply repeat_length).
  split; intros Hd.
  - rewrite !distance_le by (rewrite Hz; lia).
    assert (E : euclid a (np_zeros 3) = euclid a (np_zeros (length a))).
    { unfold euclid, ndarray_zip, np_zeros. now rewrite combine_repeat_r by assumption. }
    now rewrite E.
  - apply distance_short. rewrite Hz. exact Hd.
Qed.

Lemma C4_witness :
  distance1 (Point_init [b64_of_Z 3; b64_of_Z 4])
  = distance (Point_init [b64_of_Z 3; b64_of_Z 4]) (Origin 2) /\
  distance1 (Point_init [b64_of_Z 3; b64_of_Z 4])
  = Ok (euclid [b64_of_Z 3; b64_of_Z 4] (np_zeros 2)).
Proof.
  apply (proj1 (@C4_distance_default_is_3d_origin spec_float binary64 binary64_laws
                  [b64_of_Z 3; b64_of_Z 4])).
  simpl. lia.
Defined.

(** C4, counterexample: for a 4-dimensional Point the call with the
    second argument omitted fails. *)
Lemma C4_counterexample :
  dimension (Point_init [b64_of_Z 1; b64_of_Z 2; b64_of_Z 3; b64_of_Z 4]) = 4 /\
  distance1 (Point_init [b64_of_Z 1; b64_of_Z 2; b64_of_Z 3; b64_of_Z 4])
  = Raise IndexError_out_of_range.
Proof. split; reflexivity. Qed.


(** ** PointCloud: construction *)

Lemma PointCloud_init_shape {F : Type} `{Scalar F}
  (raw : list F) (d n : nat) (flag : bool) (c : PointCloud) :
  PointCloud_init raw d n flag = Ok c -> length raw = n * d.
Proof.
  unfold PointCloud_init, ndarray_reshape.
  destruct (length raw =? n * d) eqn:E; [intros _; now apply Nat.eqb_eq|discriminate].
Qed.

Lemma PointCloud_init_plain {F : Type} `{Scalar F} (raw : list F) (d n : nat) :
  length raw = n * d ->
  PointCloud_init raw d n false
  = Ok {| points := map Point_init (chunks d n raw);
          cloud_dimension := d; point_count := n |}.
Proof.
  intros Hlen. unfold PointCloud_init, ndarray_reshape.
  now replace (length raw =? n * d) with true by (symmetry; now apply Nat.eqb_eq).
Qed.

Lemma PointCloud_init_normalised {F : Type} `{Scalar F} (raw : list F) (d n : nat) :
  length raw = n * d ->
  PointCloud_init raw d n true
  = normalise {| points := map Point_init (chunks d n raw);
                 cloud_dimension := d; point_count := n |}.
Proof.
  intros Hlen. unfold PointCloud_init, ndarray_reshape.
  now replace (length raw =? n * d) with true by (symmetry; now apply Nat.eqb_eq).
Qed.

(** C6 (as stated: construction succeeds whenever the length is
    [d * n]).  What the code does: whatever the [normalise] flag, a
    length other than [d * n] fails in the reshape; with the length
    [d * n] the reshape gives [n] rows of [d] coordinates in row-major
    order, which are the cloud when [normalise] is false, and which are
    normalised into [n] Points of [d] coordinates when [normalise] is
    true and [n >= 2]. *)
Theorem C6_shape_contract {F : Type} `{ScalarLaws F} (raw : list F) (d n : nat) :
  (length raw <> n * d ->
   forall flag, PointCloud_init raw d n flag = Raise ValueError_reshape) /\
  (length raw = n * d ->
   PointCloud_init raw d n false
   = Ok {| points := map Point_init (chunks d n raw);
           cloud_dimension := d; point_count := n |} /\
   length (chunks d n raw) = n /\
   Forall (fun r => length r = d) (chunks d n raw) /\
   (forall i j, i < n -> j < d ->
                nth_error (nth i (chunks d n raw) []) j = nth_error raw (i * d + j)) /\
   (2 <= n ->
    exists c, PointCloud_init raw d n true = Ok c /\
              length (points c) = n /\
              Forall (fun p => dimension p = d /\ length (coordinates p) = d) (points c))).
Proof.
  split.
  - intros Hlen flag. unfold PointCloud_init, ndarray_reshape.
    now replace (length raw =? n * d) with false by (symmetry; now apply Nat.eqb_neq).
  - intros Hlen. split; [now apply PointCloud_init_plain|].
    split; [apply chunks_length|]. split; [now apply chunks_row_length|].
    split; [intros i j Hi Hj; now apply chunks_nth_error|].
    intros Hn. rewrite PointCloud_init_normalised by assumption.
    pose proof (chunks_length d n raw) as Hrows.
    pose proof (chunks_row_length d n raw Hlen) as Hall.
    destruct (chunks d n raw) as [|r0 [|r1 rs]]; cbn [length] in Hrows; try lia.
    rewrite (normalise_rows n Hall).
    change (map (fun r => euclid r r0) (r1 :: rs))
      with (euclid r1 r0 :: map (fun r => euclid r r0) rs).
    cbn [py_max bind]. eexists. split; [reflexivity|]. cbn [points]. split.
    + rewrite length_map. exact Hrows.
    + apply Forall_map. inversion Hall as [|? ? Hr0 Htl]; subst.
      revert Hall. apply Forall_impl. intros r Hr.
      cbn [dimension coordinates Point_init].
      rewrite normalised_row_length; lia.
Qed.

Lemma C6_witness :
  PointCloud_init (map b64_of_Z [1; 2; 3; 4; 5; 6]%Z) 3 2 false
  = Ok {| points := map Point_init (chunks 3 2 (map b64_of_Z [1; 2; 3; 4; 5; 6]%Z));
          cloud_dimension := 3; point_count := 2 |}.
Proof.
  apply (proj2 (@C6_shape_contract spec_float binary64 binary64_laws
                  (map b64_of_Z [1; 2; 3; 4; 5; 6]%Z) 3 2)).
  reflexivity.
Defined.

(** C6, counterexample: one value, [d = 1], [n = 1] and the default
    [normalise = True]: the length is [d * n], yet the construction
    fails, in [max()] of the empty list of distances. *)
Lemma C6_counterexample :
  length [b64_of_Z 1] = 1 * 1 /\
  PointCloud_init [b64_of_Z 1] 1 1 true = Raise ValueError_max_empty.
Proof. split; reflexivity. Qed.

(** ** PointCloud: normalisation *)

(** C8.  With a single point, [normalise] of [src/modules] always
    fails, in [max()] of an empty list.  The earlier copy in
    [src/point_tools] does not: it searches the maximum over all
    points and measures each distance from the 3-dimensional origin,
    so that a sole point at the origin is divided by zero and comes
    back as NaN, silently. *)
Theorem C8_single_point :
  (forall (F : Type) (Sc : Scalar F) (p : Point) (d n : nat),
      normalise {| points := [p]; cloud_dimension := d; point_count := n |}
      = Raise ValueError_max_empty) /\
  legacy_PointCloud_init [b64_of_Z 0; b64_of_Z 0; b64_of_Z 0] 3 1 true
  = Ok {| points := [Point_init [S754_nan; S754_nan; S754_nan]];
          cloud_dimension := 3; point_count := 1 |}.
Proof. split; reflexivity. Qed.

(** ** normalise in binary64 *)

Lemma SFsub_zero_r (u : spec_float) : SFsub prec emax u (S754_zero false) = u.
Proof. destruct u as [[]|[]| |[] m e]; reflexivity. Qed.

Lemma zip_sub_zeros (r : list spec_float) :
  ndarray_zip s_sub r (np_zeros (length r)) = r.
Proof.
  unfold ndarray_zip, np_zeros. induction r as [|u r IH]; [reflexivity|].
  cbn [length repeat combine map fst snd]. rewrite IH. f_equal.
  apply SFsub_zero_r.
Qed.

Lemma normalised_row_from_zero (m : spec_float) (r : list spec_float) :
  normalised_row (np_zeros (length r)) m r = map (fun u => s_div u m) r.
Proof. unfold normalised_row. now rewrite zip_sub_zeros. Qed.

Lemma map_fixed {A : Type} (f : A -> A) (l : list A) :
  map f l = l <-> Forall (fun u => f u = u) l.
Proof.
  induction l as [|u l IH]; cbn [map]; split; intros E.
  - constructor.
  - reflexivity.
  - injection E as Hu Hl. constructor; [exact Hu|now apply IH].
  - inversion E as [|? ? Hu Hl]. rewrite Hu. f_equal. now apply IH.
Qed.

Lemma map_coordinates_init (rows : list (list spec_float)) :
  map coordinates (map Point_init rows) = rows.
Proof. induction rows as [|r rows IH]; [reflexivity|]. cbn [map]. now rewrite IH. Qed.

Lemma py_max_nonempty (xs : list spec_float) (m : spec_float) :
  py_max xs = Ok m -> xs <> [].
Proof. now destruct xs. Qed.

Lemma zero_scale_rows (r0 r : list spec_float) (s : bool) :
  forallb is_inf_or_nan (normalised_row r0 (S754_zero s) r) = true.
Proof.
  apply forallb_forall. intros u Hu. unfold normalised_row in Hu.
  apply in_map_iff in Hu. destruct Hu as (v & <- & _). apply SFdiv_zero_r.
Qed.

(** C1 (as stated: first point zero and greatest distance 1 for every
    cloud of at least two points that are not all identical).  The
    code divides by the greatest distance it computed, whatever that
    is: whenever it is zero, every coordinate of every point comes
    back infinite or NaN.  The points need not be identical for that:
    for the 1-dimensional points 0.0 and 1e-200 the squared difference
    falls below the least positive number, the greatest distance is
    0.0, and the cloud comes back as (nan), (inf).  For 0.0 and 1e200
    the square overflows, the greatest distance is infinite, both
    points come back as zero and the greatest distance is then 0. *)
Theorem C1_normalise_zero_scale :
  (forall (raw : list spec_float) (d n : nat) (c : PointCloud) (s : bool),
      PointCloud_init raw d n false = Ok c ->
      max_distance_from_first c = Ok (S754_zero s) ->
      exists c',
        PointCloud_init raw d n true = Ok c' /\ normalise c = Ok c' /\
        Forall (fun p => forallb is_inf_or_nan (coordinates p) = true) (points c')) /\
  (b64_of_Z 0 <> b64_of_decimal false 1 (-200) /\
   PointCloud_init [b64_of_Z 0; b64_of_decimal false 1 (-200)] 1 2 true
   = Ok {| points := [Point_init [S754_nan]; Point_init [S754_infinity false]];
           cloud_dimension := 1; point_count := 2 |}) /\
  (b64_of_Z 0 <> b64_of_decimal false 1 200 /\
   PointCloud_init [b64_of_Z 0; b64_of_decimal false 1 200] 1 2 true
   = Ok {| points := [Point_init [S754_zero false]; Point_init [S754_zero false]];
           cloud_dimension := 1; point_count := 2 |} /\
   (c <- PointCloud_init [b64_of_Z 0; b64_of_decimal false 1 200] 1 2 true ;;
    max_distance_from_first c) = Ok (S754_zero false)).
Proof.
  split; [|split].
  - intros raw d n c s Hinit Hmax.
    pose proof (PointCloud_init_shape _ _ _ _ Hinit) as Hlen.
    rewrite (PointCloud_init_normalised _ _ _ Hlen).
    rewrite (PointCloud_init_plain _ _ _ Hlen) in Hinit.
    inversion Hinit; subst c; clear Hinit.
    pose proof (chunks_row_length d n raw Hlen) as Hall.
    destruct (chunks d n raw) as [|r0 rs]; [discriminate|].
    rewrite (max_distance_from_first_rows n Hall) in Hmax.
    rewrite (normalise_rows n Hall), Hmax. cbn [bind].
    eexists. split; [reflexivity|]. split; [reflexivity|]. cbn [points].
    apply Forall_map, Forall_forall. intros r _. cbn [coordinates Point_init].
    apply zero_scale_rows.
  - split; [vm_compute; discriminate|vm_compute; reflexivity].
  - split; [vm_compute; discriminate|split; vm_compute; reflexivity].
Qed.

Lemma C1_witness :
  exists c',
    PointCloud_init [b64_of_Z 0; b64_of_decimal false 1 (-200)] 1 2 true = Ok c' /\
    normalise {| points := map Point_init [[b64_of_Z 0]; [b64_of_decimal false 1 (-200)]];
                 cloud_dimension := 1; point_count := 2 |} = Ok c' /\
    Forall (fun p => forallb is_inf_or_nan (coordinates p) = true) (points c').
Proof.
  apply (proj1 C1_normalise_zero_scale
           [b64_of_Z 0; b64_of_decimal false 1 (-200)] 1 2
           {| points := map Point_init [[b64_of_Z 0]; [b64_of_decimal false 1 (-200)]];
              cloud_dimension := 1; point_count := 2 |} false).
  - vm_compute. reflexivity.
  - vm_compute. reflexivity.
Defined.

(** C7 (as stated: a second [normalise] always changes the result).
    What the code does, in binary64, for every cloud whose first point
    is finite and whose greatest distance from it is above zero: the
    first call leaves the first point at the zero vector, so the
    second call subtracts nothing and divides every coordinate by the
    greatest distance [m2] computed anew from the normalised points.
    The result of the second call differs from that of the first
    exactly when that division changes a coordinate.  For the points
    (0,0), (1,1) it does, in the last digit; for 0.0, 1e200 the first
    call gives 0.0, 0.0 and the second nan, nan. *)
Theorem C7_normalise_twice :
  (forall (raw : list spec_float) (d n : nat) (c : PointCloud) (m1 : spec_float),
      PointCloud_init raw d n false = Ok c ->
      max_distance_from_first c = Ok m1 ->
      s_ltb s_zero m1 = true ->
      (forall p0, nth_error (points c) 0 = Some p0 ->
                  forallb is_finite (coordinates p0) = true) ->
      exists c1 m2 c2,
        normalise c = Ok c1 /\
        nth_error (points c1) 0 = Some (Origin d) /\
        max_distance_from_first c1 = Ok m2 /\
        normalise c1 = Ok c2 /\
        points c2 = map (fun p => Point_init (map (fun u => s_div u m2) (coordinates p)))
                        (points c1) /\
        (c2 = c1 <->
         forall p u, In p (points c1) -> In u (coordinates p) -> s_div u m2 = u)) /\
  ((c1 <- PointCloud_init (map b64_of_Z [0; 0; 1; 1]%Z) 2 2 true ;;
    Ok (csv_repr c1 ","))
   = Ok "0.0,0.0,0.7071067811865475,0.7071067811865475"%string /\
   (c1 <- PointCloud_init (map b64_of_Z [0; 0; 1; 1]%Z) 2 2 true ;;
    c2 <- normalise c1 ;;
    Ok (csv_repr c2 ","))
   = Ok "0.0,0.0,0.7071067811865476,0.7071067811865476"%string) /\
  ((c1 <- PointCloud_init [b64_of_Z 0; b64_of_decimal false 1 200] 1 2 true ;;
    Ok (csv_repr c1 ","))
   = Ok "0.0,0.0"%string /\
   (c1 <- PointCloud_init [b64_of_Z 0; b64_of_decimal false 1 200] 1 2 true ;;
    c2 <- normalise c1 ;;
    Ok (csv_repr c2 ","))
   = Ok "nan,nan"%string).
Proof.
  split; [|split; split; vm_compute; reflexivity].
  intros raw d n c m1 Hinit Hmax Hpos Hfin.
  pose proof (PointCloud_init_shape _ _ _ _ Hinit) as Hlen.
  rewrite (PointCloud_init_plain _ _ _ Hlen) in Hinit. inversion Hinit; subst c; clear Hinit.
  pose proof (chunks_row_length d n raw Hlen) as Hall.
  destruct (chunks d n raw) as [|r0 rs]; [discriminate|].
  rewrite (max_distance_from_first_rows n Hall) in Hmax.
  rewrite (normalise_rows n Hall), Hmax. cbn [bind].
  specialize (Hfin (Point_init r0) eq_refl). cbn [coordinates Point_init] in Hfin.
  inversion Hall as [|? ? Hr0 Hrs]; subst.
  set (rows1 := map (normalised_row r0 m1) (r0 :: rs)).
  assert (E1 : map (fun r => Point_init (normalised_row r0 m1 r)) (r0 :: rs)
               = map Point_init rows1) by (unfold rows1; now rewrite map_map).
  rewrite E1.
  assert (Hall1 : Forall (fun r => length r = length r0) rows1)
    by (apply normalised_rows_length; [reflexivity|exact Hall]).
  assert (Erows1 : rows1 = np_zeros (length r0) :: map (normalised_row r0 m1) rs).
  { unfold rows1. cbn [map]. now rewrite (b64_normalised_row_origin _ _ Hfin Hpos). }
  clearbody rows1.
  assert (Hne : map (normalised_row r0 m1) rs <> []).
  { apply py_max_nonempty in Hmax. destruct rs; [now elim Hmax|discriminate]. }
  assert (Hm2 : exists m2,
             py_max (map (fun r => euclid r (np_zeros (length r0)))
                         (map (normalised_row r0 m1) rs)) = Ok m2).
  { destruct (map (normalised_row r0 m1) rs) as [|r1 rs1]; [now elim Hne|].
    eexists. reflexivity. }
  destruct Hm2 as [m2 Em2].
  exists {| points := map Point_init rows1; cloud_dimension := length r0; point_count := n |},
         m2,
         {| points := map Point_init (map (map (fun u => s_div u m2)) rows1);
            cloud_dimension := length r0; point_count := n |}.
  assert (Hdiv : map (fun r => Point_init (normalised_row (np_zeros (length r0)) m2 r)) rows1
                 = map Point_init (map (map (fun u => s_div u m2)) rows1)).
  { rewrite map_map. apply map_ext_in. intros r Hr.
    rewrite Forall_forall in Hall1. rewrite <- (Hall1 r Hr).
    now rewrite normalised_row_from_zero. }
  split; [reflexivity|]. split; [now rewrite Erows1|].
  split; [|split; [|split]].
  - rewrite Erows1 in Hall1 |- *.
    now rewrite (max_distance_from_first_rows n Hall1).
  - rewrite Erows1 in Hall1, Hdiv |- *.
    rewrite (normalise_rows n Hall1), Em2. cbn [bind]. now rewrite Hdiv.
  - cbn [points]. rewrite !map_map. reflexivity.
  - cbn [points]. split.
    + intros E p u Hp Hu. apply in_map_iff in Hp. destruct Hp as (r & <- & Hr).
      cbn [coordinates Point_init] in Hu.
      injection E as E. apply (f_equal (map coordinates)) in E.
      rewrite !map_coordinates_init in E.
      apply map_fixed in E. rewrite Forall_forall in E. specialize (E r Hr).
      apply map_fixed in E. rewrite Forall_forall in E. now apply E.
    + intros Hsame. do 2 f_equal. apply map_fixed, Forall_forall. intros r Hr.
      apply map_fixed, Forall_forall. intros u Hu.
      apply (Hsame (Point_init r)); [now apply in_map|exact Hu].
Qed.

Lemma C7_witness :
  exists c1 m2 c2,
    normalise scaling_cloud = Ok c1 /\
    nth_error (points c1) 0 = Some (Origin 3) /\
    max_distance_from_first c1 = Ok m2 /\
    normalise c1 = Ok c2 /\
    points c2 = map (fun p => Point_init (map (fun u => s_div u m2) (coordinates p)))
                    (points c1) /\
    (c2 = c1 <->
     forall p u, In p (points c1) -> In u (coordinates p) -> s_div u m2 = u).
Proof.
  apply (proj1 C7_normalise_twice scaling_scenario 3 3 scaling_cloud (b64_of_Z 2)).
  - reflexivity.
  - reflexivity.
  - reflexivity.
  - intros p0 Hp0. inversion Hp0. reflexivity.
Defined.

(** C7, counterexample, in binary64: the cloud
    [(0,0,0), (1,0,0), (0,1,0)] normalised once and normalised twice
    is the same cloud. *)
Lemma C7_counterexample :
  exists c c1,
    PointCloud_init (map b64_of_Z [0; 0; 0; 1; 0; 0; 0; 1; 0]%Z) 3 3 false = Ok c /\
    normalise c = Ok c1 /\ normalise c1 = Ok c1.
Proof. do 2 eexists. split; [reflexivity|]. split; reflexivity. Qed.


(** ** PointCloud: serialisation *)

Lemma coordinates_of_init {F : Type} `{Scalar F}
  (raw : list F) (d n : nat) (P : PointCloud) :
  PointCloud_init raw d n false = Ok P -> flat_map coordinates (points P) = raw.
Proof.
  intros Hinit. pose proof (PointCloud_init_shape _ _ _ _ Hinit) as Hlen.
  rewrite (PointCloud_init_plain _ _ _ Hlen) in Hinit. inversion Hinit; subst P.
  cbn [points]. rewrite flat_map_coordinates_init. now apply chunks_concat.
Qed.

(** C2 (as stated: the round trip holds for every cloud and
    delimiter).  What the code does: for a cloud [P] built with
    [normalise = False] that has at least one coordinate, and a
    non-empty delimiter whose first character occurs in the text of no
    coordinate (the default [","] is one), reading back what
    [csv_repr] wrote, with the same delimiter, dimension and point
    count, gives [P] again, provided [float(str(x))] is [x] for each
    coordinate [x] of [P]. *)
Theorem C2_csv_round_trip {F : Type} `{Scalar F} `{FloatText F}
  (raw : list F) (d n : nat) (P : PointCloud) (c0 : ascii) (rest : string) :
  PointCloud_init raw d n false = Ok P ->
  flat_map coordinates (points P) <> [] ->
  Forall (fun x => py_float (py_str x) = Ok x) (flat_map coordinates (points P)) ->
  Forall (fun x => contains_char c0 (py_str x) = false)
         (flat_map coordinates (points P)) ->
  from_csv_line (csv_repr P (String c0 rest)) (String c0 rest) d n false = Ok P.
Proof.
  intros Hinit. rewrite (coordinates_of_init _ _ _ Hinit). intros Hne Hrt Hsep.
  now apply from_csv_line_csv_repr with (raw := raw).
Qed.


Lemma C2_witness :
  csv_repr unit_cloud "," = "0.0,0.0,0.0,1.0,0.0,0.0,0.0,1.0,0.0"%string /\
  from_csv_line (csv_repr unit_cloud ",") "," 3 3 false = Ok unit_cloud.
Proof.
  split; [reflexivity|].
  apply (@C2_csv_round_trip spec_float binary64 binary64_text
           unit_scenario 3 3 unit_cloud ","%char EmptyString).
  - reflexivity.
  - discriminate.
  - repeat (constructor; [reflexivity|]). constructor.
  - repeat (constructor; [reflexivity|]). constructor.
Defined.

(** C2, counterexample: the cloud of the single point (1.5, 2.5)
    written with the delimiter ["."] reads back as four tokens, and
    the construction fails in the reshape. *)
Lemma C2_counterexample :
  exists P,
    PointCloud_init [b64_of_decimal false 15 (-1); b64_of_decimal false 25 (-1)] 2 1 false
    = Ok P /\
    csv_repr P "." = "1.5.2.5"%string /\
    from_csv_line (csv_repr P ".") "." 2 1 false = Raise ValueError_reshape.
Proof. eexists. split; [reflexivity|]. split; reflexivity. Qed.

(** ** Point: arithmetic allocates *)

Section ObjectFacts.
Context {F : Type} `{Scalar F}.

Lemma read_point_inv (h : @heap F) (r : ref) (p : @Point F) :
  read_point h r = Some p ->
  exists c, nth_error h r = Some (PointObject c (dimension p) (x p) (y p) (z p)) /\
            nth_error h c = Some (Ndarray (coordinates p)).
Proof.
  unfold read_point. intros Hr.
  destruct (nth_error h r) as [[|c d ox oy oz]|]; try discriminate.
  destruct (nth_error h c) as [[data|]|] eqn:Ec; try discriminate.
  inversion Hr; subst. exists c. now split.
Qed.

Lemma returns_new_keeps (h h' : @heap F) (r : ref) (v p : @Point F) (l : ref) :
  returns_new h h' r v -> read_point h l = Some p -> read_point h' l = Some p.
Proof.
  intros ((added & ->) & _) Hl. now apply read_point_extend.
Qed.

Lemma obj_zip_then_Point (f : F -> F -> F) (h : @heap F) (self other : ref) (p q : @Point F) :
  read_point h self = Some p -> read_point h other = Some q ->
  exists cs co,
    get_point self h = Some (Ok (cs, dimension p), h) /\
    get_point other h = Some (Ok (co, dimension q), h) /\
    exists r h',
      hbind (obj_ndarray_zip f cs co) obj_Point h = Some (Ok r, h') /\
      returns_new h h' r (Point_init (ndarray_zip f (coordinates p) (coordinates q))).
Proof.
  intros Hp Hq.
  destruct (read_point_inv _ _ Hp) as (cs & Hs & Hcs).
  destruct (read_point_inv _ _ Hq) as (co & Ho & Hco).
  exists cs, co. unfold get_point. rewrite Hs, Ho. split; [reflexivity|]. split; [reflexivity|].
  destruct (wrap_fresh_array h (ndarray_zip f (coordinates p) (coordinates q)))
    as (r & h' & Hrun & Hnew).
  exists r, h'. split; [|exact Hnew].
  assert (E : obj_ndarray_zip f cs co h
              = alloc (Ndarray (ndarray_zip f (coordinates p) (coordinates q))) h).
  { unfold obj_ndarray_zip, hbind, get_array. cbv beta. now rewrite Hcs, Hco. }
  unfold hbind at 1. unfold hbind at 1 in Hrun. now rewrite E.
Qed.

Lemma obj_map_then_Point (f : F -> F) (h : @heap F) (self : ref) (p : @Point F) :
  read_point h self = Some p ->
  exists cs,
    get_point self h = Some (Ok (cs, dimension p), h) /\
    exists r h',
      hbind (obj_ndarray_map f cs) obj_Point h = Some (Ok r, h') /\
      returns_new h h' r (Point_init (map f (coordinates p))).
Proof.
  intros Hp. destruct (read_point_inv _ _ Hp) as (cs & Hs & Hcs).
  exists cs. unfold get_point. rewrite Hs. split; [reflexivity|].
  destruct (wrap_fresh_array h (map f (coordinates p))) as (r & h' & Hrun & Hnew).
  exists r, h'. split; [|exact Hnew].
  assert (E : obj_ndarray_map f cs h = alloc (Ndarray (map f (coordinates p))) h).
  { unfold obj_ndarray_map, hbind, get_array. cbv beta. now rewrite Hcs. }
  unfold hbind at 1. unfold hbind at 1 in Hrun. now rewrite E.
Qed.

End ObjectFacts.

(** C9.  Each arithmetic operation on Points returns a new Point: the
    object returned and its coordinates array did not exist before,
    every object that existed is unchanged, so that the operands hold
    the coordinates and dimension they held, and the new Point holds
    the value the operation computes.  When the dimensions differ,
    addition and subtraction raise and the store is as it was. *)
Theorem C9_arithmetic_returns_new_point {F : Type} `{Scalar F}
  (h : @heap F) (self other : ref) (p q : @Point F) (k : F) :
  read_point h self = Some p ->
  read_point h other = Some q ->
  (match Point_add p q with
   | Ok v => exists r h', obj_Point_add self other h = Some (Ok r, h') /\
                          returns_new h h' r v /\
                          read_point h' self = Some p /\ read_point h' other = Some q
   | Raise e => obj_Point_add self other h = Some (Raise e, h)
   end) /\
  (match Point_sub p q with
   | Ok v => exists r h', obj_Point_sub self other h = Some (Ok r, h') /\
                          returns_new h h' r v /\
                          read_point h' self = Some p /\ read_point h' other = Some q
   | Raise e => obj_Point_sub self other h = Some (Raise e, h)
   end) /\
  (match Point_mul p k with
   | Ok v => exists r h', obj_Point_mul self k h = Some (Ok r, h') /\
                          returns_new h h' r v /\ read_point h' self = Some p
   | Raise e => obj_Point_mul self k h = Some (Raise e, h)
   end) /\
  (match Point_truediv p k with
   | Ok v => exists r h', obj_Point_truediv self k h = Some (Ok r, h') /\
                          returns_new h h' r v /\ read_point h' self = Some p
   | Raise e => obj_Point_truediv self k h = Some (Raise e, h)
   end).
Proof.
  intros Hp Hq. repeat split.
  - destruct (@obj_zip_then_Point F s_add h self other p q Hp Hq)
      as (cs & co & Hs & Ho & r & h' & Hrun & Hnew).
    assert (Erun : obj_Point_add self other h
                   = if negb (dimension p =? dimension q)
                     then Some (Raise ValueError_same_dimension, h)
                     else hbind (obj_ndarray_zip s_add cs co) obj_Point h).
    { unfold obj_Point_add. unfold hbind at 1. rewrite Hs. unfold hbind at 1. rewrite Ho.
      cbn [fst snd]. now destruct (negb _). }
    rewrite Erun. unfold Point_add.
    destruct (negb (dimension p =? dimension q)); [reflexivity|].
    exists r, h'. split; [exact Hrun|]. split; [exact Hnew|].
    split; eapply returns_new_keeps; eassumption.
  - destruct (@obj_zip_then_Point F s_sub h self other p q Hp Hq)
      as (cs & co & Hs & Ho & r & h' & Hrun & Hnew).
    assert (Erun : obj_Point_sub self other h
                   = if negb (dimension p =? dimension q)
                     then Some (Raise ValueError_same_dimension, h)
                     else hbind (obj_ndarray_zip s_sub cs co) obj_Point h).
    { unfold obj_Point_sub. unfold hbind at 1. rewrite Hs. unfold hbind at 1. rewrite Ho.
      cbn [fst snd]. now destruct (negb _). }
    rewrite Erun. unfold Point_sub.
    destruct (negb (dimension p =? dimension q)); [reflexivity|].
    exists r, h'. split; [exact Hrun|]. split; [exact Hnew|].
    split; eapply returns_new_keeps; eassumption.
  - destruct (@obj_map_then_Point F (fun c => s_mul c k) h self p Hp) as (cs & Hs & r & h' & Hrun & Hnew).
    assert (Erun : obj_Point_mul self k h
                   = hbind (obj_ndarray_map (fun c => s_mul c k) cs) obj_Point h).
    { unfold obj_Point_mul. unfold hbind at 1. now rewrite Hs. }
    rewrite Erun. unfold Point_mul.
    exists r, h'. split; [exact Hrun|]. split; [exact Hnew|].
    eapply returns_new_keeps; eassumption.
  - destruct (@obj_map_then_Point F (fun c => s_div c k) h self p Hp) as (cs & Hs & r & h' & Hrun & Hnew).
    assert (Erun : obj_Point_truediv self k h
                   = hbind (obj_ndarray_map (fun c => s_div c k) cs) obj_Point h).
    { unfold obj_Point_truediv. unfold hbind at 1. now rewrite Hs. }
    rewrite Erun. unfold Point_truediv.
    exists r, h'. split; [exact Hrun|]. split; [exact Hnew|].
    eapply returns_new_keeps; eassumption.
Qed.


Lemma C9_witness :
  exists r h',
    obj_Point_add 1 3 two_points = Some (Ok r, h') /\
    returns_new two_points h' r (Point_init [b64_of_Z 4; b64_of_Z 6]) /\
    read_point h' 1 = Some (Point_init [b64_of_Z 1; b64_of_Z 2]) /\
    read_point h' 3 = Some (Point_init [b64_of_Z 3; b64_of_Z 4]).
Proof.
  exact (proj1 (@C9_arithmetic_returns_new_point spec_float binary64 two_points 1 3
                  (Point_init [b64_of_Z 1; b64_of_Z 2])
                  (Point_init [b64_of_Z 3; b64_of_Z 4])
                  (b64_of_Z 2) eq_refl eq_refl)).
Defined.


(** ** Further properties *)

(** With the default delimiter, a binary64 cloud that has at least one
    coordinate is read back as written, provided each coordinate's own
    text reads back as that coordinate: no text of a binary64 number
    holds a comma. *)
Theorem csv_round_trip_default_delimiter
  (raw : list spec_float) (d n : nat) (P : PointCloud) :
  PointCloud_init raw d n false = Ok P ->
  raw <> [] ->
  Forall (fun x => py_float (py_str x) = Ok x) raw ->
  from_csv_line (csv_repr P ",") "," d n false = Ok P.
Proof.
  intros Hinit Hne Hrt.
  apply from_csv_line_csv_repr with (raw := raw); try assumption.
  apply Forall_forall. intros x _. apply b64_str_no_comma.
Qed.

Lemma csv_round_trip_default_delimiter_witness :
  from_csv_line (csv_repr scaling_cloud ",") "," 3 3 false = Ok scaling_cloud.
Proof.
  apply (@csv_round_trip_default_delimiter scaling_scenario 3 3 scaling_cloud).
  - reflexivity.
  - discriminate.
  - repeat (constructor; [reflexivity|]). constructor.
Defined.

(** The first scenario of the specification: the cloud
    [(0,0,0), (1,0,0), (0,1,0)] is its own normalisation. *)
Theorem scenario_unit_distances :
  PointCloud_init unit_scenario 3 3 true = Ok unit_cloud.
Proof. reflexivity. Qed.

(** The second scenario: [(0,0,0), (2,0,0), (0,0,0)] is scaled by 2 to
    [(0,0,0), (1,0,0), (0,0,0)]. *)
Theorem scenario_scaling :
  PointCloud_init scaling_scenario 3 3 true
  = Ok {| points := map Point_init
                      [map b64_of_Z [0; 0; 0]%Z; map b64_of_Z [1; 0; 0]%Z;
                       map b64_of_Z [0; 0; 0]%Z];
          cloud_dimension := 3; point_count := 3 |}.
Proof. reflexivity. Qed.

(** A token that is not a number makes [from_csv_line] fail in
    [float()]. *)
Theorem from_csv_line_bad_token :
  from_csv_line "1.0,abc" "," 1 2 false = Raise ValueError_float.
Proof. reflexivity. Qed.


(** ** Point: indexing and arithmetic *)

(** Indexing a Point by an integer key: a key in [0, d) gives that
    coordinate, a key of [d] or more fails in the guard of
    [__getitem__], and a key below [-d] passes the guard and fails in
    the array, with numpy's own IndexError. *)
Theorem Point_getitem_by_key {F : Type} `{Scalar F} (coords : list F) (key : Z) :
  ((0 <= key < Z.of_nat (dimension (Point_init coords)))%Z ->
   exists v, nth_error coords (Z.to_nat key) = Some v /\
             Point_getitem (Point_init coords) key = Ok v) /\
  ((Z.of_nat (dimension (Point_init coords)) <= key)%Z ->
   Point_getitem (Point_init coords) key = Raise IndexError_out_of_range) /\
  ((key < - Z.of_nat (dimension (Point_init coords)))%Z ->
   Point_getitem (Point_init coords) key = Raise IndexError_ndarray).
Proof.
  cbn [dimension Point_init]. repeat split.
  - intros Hk.
    destruct (nth_error coords (Z.to_nat key)) as [v|] eqn:E;
      [|apply nth_error_None in E; lia].
    exists v. split; [reflexivity|].
    rewrite <- (Z2Nat.id key) by lia. now apply Point_getitem_nat.
  - intros Hk. rewrite <- (Z2Nat.id key) by lia. apply Point_getitem_beyond. lia.
  - intros Hk. unfold Point_getitem, ndarray_getitem. cbn [dimension coordinates Point_init].
    replace (key >? Z.of_nat (length coords) - 1)%Z with false
      by (symmetry; rewrite Z.gtb_ltb; apply Z.ltb_ge; lia).
    now replace (key <? - Z.of_nat (length coords))%Z with true
      by (symmetry; apply Z.ltb_lt; lia).
Qed.

Lemma Point_getitem_by_key_witness :
  Point_getitem (Point_init [b64_of_Z 7; b64_of_Z 8]) 2 = Raise IndexError_out_of_range /\
  Point_getitem (Point_init [b64_of_Z 7; b64_of_Z 8]) (-3) = Raise IndexError_ndarray.
Proof.
  split.
  - apply (proj1 (proj2 (@Point_getitem_by_key spec_float binary64
                           [b64_of_Z 7; b64_of_Z 8] 2%Z))).
    simpl. lia.
  - apply (proj2 (proj2 (@Point_getitem_by_key spec_float binary64
                           [b64_of_Z 7; b64_of_Z 8] (-3)%Z))).
    simpl. lia.
Defined.

(** Addition and subtraction raise exactly when the dimensions differ;
    every Point an operation returns has the dimension of the Point it
    was called on, and as many coordinates. *)
Theorem Point_arithmetic_keeps_dimension {F : Type} `{Scalar F}
  (a b : list F) (k : F) :
  (dimension (Point_init a) <> dimension (Point_init b) ->
   Point_add (Point_init a) (Point_init b) = Raise ValueError_same_dimension /\
   Point_sub (Point_init a) (Point_init b) = Raise ValueError_same_dimension) /\
  (dimension (Point_init a) = dimension (Point_init b) ->
   exists p q,
     Point_add (Point_init a) (Point_init b) = Ok p /\
     Point_sub (Point_init a) (Point_init b) = Ok q /\
     dimension p = length a /\ length (coordinates p) = length a /\
     dimension q = length a /\ length (coordinates q) = length a) /\
  (exists p q,
     Point_mul (Point_init a) k = Ok p /\
     Point_truediv (Point_init a) k = Ok q /\
     dimension p = length a /\ length (coordinates p) = length a /\
     dimension q = length a /\ length (coordinates q) = length a).
Proof.
  cbn [dimension Point_init]. repeat split.
  - unfold Point_add. cbn [dimension Point_init].
    now replace (length a =? length b) with false by (symmetry; now apply Nat.eqb_neq).
  - unfold Point_sub. cbn [dimension Point_init].
    now replace (length a =? length b) with false by (symmetry; now apply Nat.eqb_neq).
  - intros Hd. unfold Point_add, Point_sub. cbn [dimension Point_init].
    replace (length a =? length b) with true by (symmetry; now apply Nat.eqb_eq).
    do 2 eexists. split; [reflexivity|]. split; [reflexivity|].
    cbn [dimension coordinates Point_init]. now rewrite !ndarray_zip_length.
  - do 2 eexists. split; [reflexivity|]. split; [reflexivity|].
    cbn [dimension coordinates Point_init]. now rewrite !length_map.
Qed.

Lemma Point_arithmetic_keeps_dimension_witness :
  Point_add (Point_init [b64_of_Z 1]) (Point_init [b64_of_Z 1; b64_of_Z 2])
  = Raise ValueError_same_dimension /\
  Point_sub (Point_init [b64_of_Z 1]) (Point_init [b64_of_Z 1; b64_of_Z 2])
  = Raise ValueError_same_dimension.
Proof.
  apply (proj1 (@Point_arithmetic_keeps_dimension spec_float binary64
                  [b64_of_Z 1] [b64_of_Z 1; b64_of_Z 2] (b64_of_Z 0))).
  simpl. lia.
Defined.

(** *** binary64 addition commutes *)

Lemma SFadd_comm (u v : spec_float) : SFadd prec emax u v = SFadd prec emax v u.
Proof.
  destruct u as [su|su| |su mu eu]; destruct v as [sv|sv| |sv mv ev];
    try destruct su; try destruct sv; try reflexivity;
    cbn [SFadd]; rewrite (Z.min_comm ev eu); f_equal; apply Z.add_comm.
Qed.

Lemma ndarray_zip_comm {F : Type} (f : F -> F -> F) (a b : list F) :
  (forall u v, f u v = f v u) -> ndarray_zip f a b = ndarray_zip f b a.
Proof.
  intros Hf. unfold ndarray_zip. revert b.
  induction a as [|u a IH]; intros [|v b]; try reflexivity.
  cbn [combine map fst snd]. now rewrite IH, Hf.
Qed.

(** [a + b] and [b + a] are the same Point, or the same error, in
    binary64. *)
Theorem Point_add_commutes (p q : @Point spec_float) :
  Point_add p q = Point_add q p.
Proof.
  unfold Point_add. rewrite (Nat.eqb_sym (dimension q) (dimension p)).
  destruct (dimension p =? dimension q); [|reflexivity]. cbn [negb].
  do 2 f_equal. apply ndarray_zip_comm. exact SFadd_comm.
Qed.


(** *** Subtraction where nothing is rounded *)

Lemma zip_sub_self (a : list spec_float) :
  forallb is_finite a = true -> ndarray_zip s_sub a a = np_zeros (length a).
Proof.
  intros Hfin. unfold ndarray_zip, np_zeros. induction a as [|u a IH]; [reflexivity|].
  cbn [forallb] in Hfin. apply andb_prop in Hfin. destruct Hfin as [Hu Hfin].
  cbn [combine map fst snd length repeat]. rewrite (IH Hfin). f_equal.
  now apply SFsub_self.
Qed.

(** In binary64, [p - p] is the zero Point of [p]'s dimension when the
    coordinates of [p] are finite, and [p - Origin] is [p] for every
    [p], signed zeros, infinities and NaN included.  Adding and then
    subtracting one Point does not give the first back in general:
    [(0.1 + 0.2) - 0.2] is not [0.1]. *)
Theorem subtraction_cancels (a : list spec_float) :
  (forallb is_finite a = true ->
   Point_sub (Point_init a) (Point_init a) = Ok (Origin (length a))) /\
  Point_sub (Point_init a) (Origin (length a)) = Ok (Point_init a) /\
  (p <- Point_add (Point_init [b64_of_decimal false 1 (-1)])
                  (Point_init [b64_of_decimal false 2 (-1)]) ;;
   Point_sub p (Point_init [b64_of_decimal false 2 (-1)]))
  <> Ok (Point_init [b64_of_decimal false 1 (-1)]).
Proof.
  split; [|split].
  - intros Hfin. unfold Point_sub. cbn [dimension Point_init coordinates].
    rewrite Nat.eqb_refl. cbn [negb]. now rewrite (zip_sub_self _ Hfin).
  - unfold Point_sub, Origin. cbn [dimension Point_init coordinates].
    unfold np_zeros at 1. rewrite repeat_length, Nat.eqb_refl. cbn [negb].
    now rewrite zip_sub_zeros.
  - vm_compute. discriminate.
Qed.

Lemma subtraction_cancels_witness :
  Point_sub (Point_init [b64_of_Z 3; b64_of_decimal true 25 (-1)])
            (Point_init [b64_of_Z 3; b64_of_decimal true 25 (-1)])
  = Ok (Origin 2).
Proof.
  apply (proj1 (subtraction_cancels [b64_of_Z 3; b64_of_decimal true 25 (-1)])).
  reflexivity.
Defined.

(** ** Distance in binary64 *)

Lemma binary_round_aux_negative (m e : Z) (l : location) :
  binary_round_aux prec emax true m e l
  = SFopp (binary_round_aux prec emax false m e l).
Proof.
  unfold binary_round_aux.
  destruct (shr_fexp prec emax m e l) as [mrs' e'].
  destruct (shr_fexp prec emax _ e' loc_Exact) as [mrs'' e''].
  destruct (shr_m mrs''); [reflexivity| |reflexivity].
  destruct (e'' <=? emax - prec)%Z; reflexivity.
Qed.

Lemma binary_normalize_opp (d e : Z) :
  binary_normalize prec emax (- d) e false = binary_normalize prec emax d e false \/
  binary_normalize prec emax (- d) e false
  = SFopp (binary_normalize prec emax d e false).
Proof.
  destruct d as [|p|p]; cbn [Z.opp binary_normalize]; [now left| |];
    unfold binary_round; destruct (shl_align p e _) as [mz ez]; right.
  - apply binary_round_aux_negative.
  - rewrite binary_round_aux_negative.
    now destruct (binary_round_aux prec emax false (Z.pos mz) ez loc_Exact) as [[]|[]| |[] ? ?].
Qed.

Lemma SFsub_swap (u v : spec_float) :
  SFsub prec emax v u = SFsub prec emax u v \/
  SFsub prec emax v u = SFopp (SFsub prec emax u v).
Proof.
  destruct u as [su|su| |su mu eu]; destruct v as [sv|sv| |sv mv ev];
    try destruct su; try destruct sv; try (now left); try (now right).
  all: cbn [SFsub]; rewrite (Z.min_comm ev eu);
    match goal with
    | |- context [binary_normalize _ _ (?b - ?a)%Z ?e false] =>
        replace (b - a)%Z with (- (a - b))%Z by lia;
        destruct (binary_normalize_opp (a - b)%Z e) as [E|E]; rewrite E;
        [now left|now right]
    end.
Qed.

Lemma SFmul_opp_self (u : spec_float) :
  SFmul prec emax (SFopp u) (SFopp u) = SFmul prec emax u u.
Proof. destruct u as [[]|[]| |[] m e]; reflexivity. Qed.

Lemma b64_sq_diff_sym (u v : spec_float) : sq_diff u v = sq_diff v u.
Proof.
  unfold sq_diff. cbn [s_mul s_sub binary64].
  destruct (SFsub_swap u v) as [E|E]; rewrite E; [reflexivity|].
  now rewrite SFmul_opp_self.
Qed.

(** For Points of one dimension, [distance(a, b)] and [distance(b, a)]
    are the same binary64 number. *)
Theorem distance_symmetric (a b : list spec_float) :
  length a = length b ->
  distance (Point_init a) (Point_init b) = distance (Point_init b) (Point_init a).
Proof.
  intros Hlen. rewrite !distance_le by lia. unfold euclid. do 3 f_equal.
  apply ndarray_zip_comm. exact b64_sq_diff_sym.
Qed.

Lemma distance_symmetric_witness :
  distance (Point_init [b64_of_Z 1; b64_of_Z 2]) (Point_init [b64_of_Z 4; b64_of_Z 6])
  = distance (Point_init [b64_of_Z 4; b64_of_Z 6]) (Point_init [b64_of_Z 1; b64_of_Z 2]).
Proof.
  apply (@distance_symmetric [b64_of_Z 1; b64_of_Z 2] [b64_of_Z 4; b64_of_Z 6]).
  reflexivity.
Defined.

Lemma b64_sq_diffs_self (a : list spec_float) :
  forallb is_finite a = true ->
  ndarray_zip sq_diff a a = repeat (S754_zero false) (length a).
Proof.
  unfold ndarray_zip. induction a as [|u a IH]; intros Hfin; [reflexivity|].
  cbn [forallb] in Hfin. apply andb_prop in Hfin. destruct Hfin as [Hu Hfin].
  cbn [combine map fst snd length repeat]. rewrite (IH Hfin). f_equal.
  unfold sq_diff. cbn [s_mul s_sub binary64]. now rewrite (SFsub_self _ Hu).
Qed.

Lemma b64_sum_zeros (n : nat) :
  fold_left (SFadd prec emax) (repeat (S754_zero false) n) (S754_zero false)
  = S754_zero false.
Proof. induction n as [|n IH]; [reflexivity|exact IH]. Qed.

(** The distance of a Point from itself is [0.0] when its coordinates
    are finite (with an infinite or NaN coordinate it is NaN). *)
Theorem distance_to_itself (a : list spec_float) :
  forallb is_finite a = true ->
  distance (Point_init a) (Point_init a) = Ok (S754_zero false).
Proof.
  intros Hfin. rewrite distance_le by lia. unfold euclid.
  rewrite (b64_sq_diffs_self _ Hfin). unfold py_sum. cbn [s_add s_zero s_sqrt binary64].
  now rewrite b64_sum_zeros.
Qed.

Lemma distance_to_itself_witness :
  distance (Point_init [b64_of_Z 3; b64_of_decimal true 25 (-1)])
           (Point_init [b64_of_Z 3; b64_of_decimal true 25 (-1)])
  = Ok (S754_zero false).
Proof.
  apply (@distance_to_itself [b64_of_Z 3; b64_of_decimal true 25 (-1)]).
  reflexivity.
Defined.

Lemma SFsqrt_not_neg (u : spec_float) : not_neg (SFsqrt prec emax u) = true.
Proof.
  destruct u as [[]|[]| |[] m e]; try reflexivity.
  cbn [SFsqrt]. destruct (SFsqrt_core_binary prec emax (Z.pos m) e) as [[mz ez] lz].
  apply binary_round_aux_not_neg.
Qed.

(** Whatever the two Points, a distance that is returned is not below
    zero: it is zero, a positive number, positive infinity or NaN. *)
Theorem distance_not_negative (p q : @Point spec_float) (v : spec_float) :
  distance p q = Ok v -> s_ltb v s_zero = false.
Proof.
  unfold distance. destruct (squared_differences p q) as [terms|e]; [|discriminate].
  cbn [bind]. unfold math_sqrt. destruct (s_ltb (py_sum terms) s_zero); [discriminate|].
  intros Hv. inversion Hv. cbn [s_ltb s_sqrt s_zero binary64].
  now rewrite SFltb_zero, SFsqrt_not_neg.
Qed.

Lemma distance_not_negative_witness :
  s_ltb (b64_of_Z 5) s_zero = false.
Proof.
  apply (@distance_not_negative (Point_init [b64_of_Z 3; b64_of_Z 4])
           (Point_init [b64_of_Z 0; b64_of_Z 0]) (b64_of_Z 5)).
  reflexivity.
Defined.


(** ** PointCloud: construction routes *)

Lemma chunks_triples {F : Type} (lms : list (F * F * F)) :
  chunks 3 (length lms)
         (flat_map (fun lm => [fst (fst lm); snd (fst lm); snd lm]) lms)
  = map (fun lm => [fst (fst lm); snd (fst lm); snd lm]) lms.
Proof. induction lms as [|lm lms IH]; [reflexivity|]. cbn. now rewrite IH. Qed.

Lemma flat_map_triples_length {F : Type} (lms : list (F * F * F)) :
  length (flat_map (fun lm => [fst (fst lm); snd (fst lm); snd lm]) lms)
  = length lms * 3.
Proof. induction lms as [|lm lms IH]; [reflexivity|]. cbn. now rewrite IH. Qed.

(** [from_mphands] with dimension 3 and as many points as there are
    landmarks gives one Point per landmark, in the landmarks' order,
    holding its [(x, y, z)]; with a dimension and point count whose
    product is not three times the number of landmarks it fails in
    the reshape. *)
Theorem from_mphands_one_point_per_landmark {F : Type} `{Scalar F}
  (hand_landmarks : list (F * F * F)) :
  from_mphands hand_landmarks 3 (length hand_landmarks) false
  = Ok {| points := map (fun lm => Point_init [fst (fst lm); snd (fst lm); snd lm])
                        hand_landmarks;
          cloud_dimension := 3;
          point_count := length hand_landmarks |} /\
  (forall d n flag,
      length hand_landmarks * 3 <> n * d ->
      from_mphands hand_landmarks d n flag = Raise ValueError_reshape).
Proof.
  split.
  - unfold from_mphands.
    rewrite PointCloud_init_plain by apply flat_map_triples_length.
    now rewrite chunks_triples, map_map.
  - intros d n flag Hne. unfold from_mphands, PointCloud_init, ndarray_reshape.
    rewrite flat_map_triples_length.
    now replace (length hand_landmarks * 3 =? n * d) with false
      by (symmetry; now apply Nat.eqb_neq).
Qed.

Lemma from_mphands_one_point_per_landmark_witness :
  from_mphands [(b64_of_Z 1, b64_of_Z 2, b64_of_Z 3)] 3 21 true
  = Raise ValueError_reshape.
Proof.
  apply (proj2 (@from_mphands_one_point_per_landmark spec_float binary64
                  [(b64_of_Z 1, b64_of_Z 2, b64_of_Z 3)])).
  simpl. lia.
Defined.

(** Construction with [normalise = True] of a sequence of the right
    length, by the number of points: none, and indexing the first
    point fails; one, and [max()] fails on the empty list of
    distances; two or more, and the cloud is built, with [n] Points of
    [d] coordinates and the dimension and point count it was given. *)
Theorem normalised_construction_by_point_count {F : Type} `{ScalarLaws F}
  (raw : list F) (d n : nat) :
  length raw = n * d ->
  (n = 0 -> PointCloud_init raw d n true = Raise IndexError_ndarray) /\
  (n = 1 -> PointCloud_init raw d n true = Raise ValueError_max_empty) /\
  (2 <= n ->
   exists c, PointCloud_init raw d n true = Ok c /\
             length (points c) = n /\
             Forall (fun p => dimension p = d /\ length (coordinates p) = d) (points c) /\
             cloud_dimension c = d /\ point_count c = n).
Proof.
  intros Hlen. rewrite PointCloud_init_normalised by assumption.
  pose proof (chunks_length d n raw) as Hrows.
  pose proof (chunks_row_length d n raw Hlen) as Hall.
  split; [|split].
  - intros ->. reflexivity.
  - intros ->. reflexivity.
  - intros Hn.
    destruct (chunks d n raw) as [|r0 [|r1 rs]]; cbn [length] in Hrows; try lia.
    rewrite (normalise_rows n Hall).
    change (map (fun r => euclid r r0) (r1 :: rs))
      with (euclid r1 r0 :: map (fun r => euclid r r0) rs).
    cbn [py_max bind]. eexists. split; [reflexivity|].
    cbn [points cloud_dimension point_count]. split; [|split; [|split; reflexivity]].
    + rewrite length_map. exact Hrows.
    + apply Forall_map. inversion Hall as [|? ? Hr0 Htl]; subst.
      revert Hall. apply Forall_impl. intros r Hr.
      cbn [dimension coordinates Point_init].
      rewrite normalised_row_length; lia.
Qed.

Lemma normalised_construction_by_point_count_witness :
  PointCloud_init (@nil spec_float) 3 0 true = Raise IndexError_ndarray.
Proof.
  apply (proj1 (@normalised_construction_by_point_count spec_float binary64 binary64_laws
                  [] 3 0 eq_refl)).
  reflexivity.
Defined.


(** ** The earlier copy agrees on arithmetic, not on normalisation *)

Section LegacyFacts.
Context {F : Type} `{Scalar F}.

Lemma zip_by_index_seq (f : F -> F -> F) (A B : list F) (n k : nat) :
  k + n <= length A -> k + n <= length B ->
  mapM (fun i =>
          a <- ndarray_getitem A i ;;
          b <- ndarray_getitem B i ;;
          Ok (f a b))
       (map Z.of_nat (seq k n))
  = Ok (ndarray_zip f (firstn n (skipn k A)) (firstn n (skipn k B))).
Proof.
  revert k. induction n as [|n IH]; intros k HA HB; [reflexivity|].
  destruct (nth_error A k) as [u|] eqn:Eu; [|apply nth_error_None in Eu; lia].
  destruct (nth_error B k) as [v|] eqn:Ev; [|apply nth_error_None in Ev; lia].
  cbn [seq map mapM].
  rewrite (ndarray_getitem_nat _ _ Eu), (ndarray_getitem_nat _ _ Ev). cbn [bind].
  rewrite IH by lia. cbn [bind].
  rewrite (skipn_nth_error _ _ Eu), (skipn_nth_error _ _ Ev).
  reflexivity.
Qed.

Lemma zip_by_index (f : F -> F -> F) (a b : list F) :
  length a = length b ->
  mapM (fun i =>
          u <- ndarray_getitem a i ;;
          v <- ndarray_getitem b i ;;
          Ok (f u v))
       (range (length a))
  = Ok (ndarray_zip f a b).
Proof.
  intros Hlen. unfold range. rewrite zip_by_index_seq by lia. cbn [skipn].
  rewrite firstn_all, Hlen, firstn_all. reflexivity.
Qed.

Lemma map_by_index_seq (g : F -> F) (A : list F) (n k : nat) :
  k + n <= length A ->
  mapM (fun i => a <- ndarray_getitem A i ;; Ok (g a)) (map Z.of_nat (seq k n))
  = Ok (map g (firstn n (skipn k A))).
Proof.
  revert k. induction n as [|n IH]; intros k HA; [reflexivity|].
  destruct (nth_error A k) as [u|] eqn:Eu; [|apply nth_error_None in Eu; lia].
  cbn [seq map mapM]. rewrite (ndarray_getitem_nat _ _ Eu). cbn [bind].
  rewrite IH by lia. cbn [bind]. now rewrite (skipn_nth_error _ _ Eu).
Qed.

Lemma map_by_index (g : F -> F) (a : list F) :
  mapM (fun i => u <- ndarray_getitem a i ;; Ok (g u)) (range (length a))
  = Ok (map g a).
Proof.
  unfold range. rewrite map_by_index_seq by lia. cbn [skipn]. now rewrite firstn_all.
Qed.

Lemma legacy_Point_sub_agrees (a b : list F) :
  legacy_Point_sub (Point_init a) (Point_init b) = Point_sub (Point_init a) (Point_init b).
Proof.
  unfold legacy_Point_sub, Point_sub. cbn [dimension coordinates Point_init].
  destruct (length a =? length b) eqn:E; [|reflexivity]. apply Nat.eqb_eq in E.
  cbn [negb]. now rewrite zip_by_index.
Qed.

Lemma legacy_Point_truediv_agrees (a : list F) (k : F) :
  legacy_Point_truediv (Point_init a) k = Point_truediv (Point_init a) k.
Proof.
  unfold legacy_Point_truediv, Point_truediv. cbn [dimension coordinates Point_init].
  now rewrite map_by_index.
Qed.

End LegacyFacts.

(** The coordinate-by-coordinate [__add__], [__sub__] and
    [__truediv__] of [src/point_tools] return what the array
    operations of [src/modules] return, the error included. *)
Theorem legacy_arithmetic_agrees {F : Type} `{Scalar F} (a b : list F) (k : F) :
  legacy_Point_add (Point_init a) (Point_init b) = Point_add (Point_init a) (Point_init b) /\
  legacy_Point_sub (Point_init a) (Point_init b) = Point_sub (Point_init a) (Point_init b) /\
  legacy_Point_truediv (Point_init a) k = Point_truediv (Point_init a) k.
Proof.
  split; [|split; [apply legacy_Point_sub_agrees|apply legacy_Point_truediv_agrees]].
  unfold legacy_Point_add, Point_add. cbn [dimension coordinates Point_init].
  destruct (length a =? length b) eqn:E; [|reflexivity]. apply Nat.eqb_eq in E.
  cbn [negb]. now rewrite zip_by_index.
Qed.

(** [normalise] of [src/point_tools] cannot normalise a cloud of more
    than 3 dimensions: for every such cloud with at least one point it
    fails with an IndexError, in the distance of the first point from
    the 3-dimensional default. *)
Theorem legacy_normalise_beyond_3d {F : Type} `{Scalar F} (raw : list F) (d n : nat) :
  length raw = n * d -> 1 <= n -> 3 < d ->
  legacy_PointCloud_init raw d n true = Raise IndexError_out_of_range.
Proof.
  intros Hlen Hn Hd. unfold legacy_PointCloud_init, ndarray_reshape.
  replace (length raw =? n * d) with true by (symmetry; now apply Nat.eqb_eq).
  cbn [bind].
  pose proof (chunks_row_length d n raw Hlen) as Hall.
  pose proof (chunks_length d n raw) as Hrows.
  destruct (chunks d n raw) as [|r0 rs]; cbn [length] in Hrows; [lia|].
  inversion Hall as [|? ? Hr0 _]; subst.
  unfold legacy_normalise. cbn [points map bind mapM].
  unfold legacy_distance at 1, distance_point2_default, Origin.
  rewrite squared_differences_short; [reflexivity|].
  unfold np_zeros. rewrite repeat_length. exact Hd.
Qed.

Lemma legacy_normalise_beyond_3d_witness :
  legacy_PointCloud_init (map b64_of_Z [1; 2; 3; 4]%Z) 4 1 true
  = Raise IndexError_out_of_range.
Proof.
  apply (@legacy_normalise_beyond_3d spec_float binary64 (map b64_of_Z [1; 2; 3; 4]%Z) 4 1).
  - reflexivity.
  - lia.
  - lia.
Defined.

Lemma SFltb_irrefl (u : spec_float) : SFltb u u = false.
Proof.
  unfold SFltb, SFcompare.
  destruct u as [[]|[]| |[] m e]; try reflexivity;
    rewrite Z.compare_refl, Pos.compare_cont_refl; reflexivity.
Qed.

Lemma max_of_constant (m : spec_float) (n : nat) :
  fold_left (fun a y => if s_ltb a y then y else a) (repeat m n) m = m.
Proof.
  induction n as [|n IH]; [reflexivity|]. cbn [repeat fold_left s_ltb binary64].
  now rewrite SFltb_irrefl.
Qed.

Lemma map_const_repeat (A B : Type) (b : B) (l : list A) :
  map (fun _ => b) l = repeat b (length l).
Proof. induction l as [|a l IH]; [reflexivity|]. cbn. now rewrite IH. Qed.

(** For clouds of at most 3 dimensions, [normalise] of
    [src/point_tools] shifts by the first point and divides by the
    distance of the first point from the origin: the other points have
    no part in the scale. *)
Theorem legacy_normalise_scales_by_first_point
  (raw : list spec_float) (d n : nat) (r0 : list spec_float) :
  length raw = n * d -> d <= 3 ->
  nth_error (chunks d n raw) 0 = Some r0 ->
  legacy_PointCloud_init raw d n true
  = Ok {| points := map (fun r => Point_init
                                    (normalised_row r0 (euclid r0 (np_zeros 3)) r))
                        (chunks d n raw);
          cloud_dimension := d; point_count := n |}.
Proof.
  intros Hlen Hd H0. unfold legacy_PointCloud_init, ndarray_reshape.
  replace (length raw =? n * d) with true by (symmetry; now apply Nat.eqb_eq).
  cbn [bind].
  pose proof (chunks_row_length d n raw Hlen) as Hall.
  destruct (chunks d n raw) as [|r0' rs]; [discriminate|].
  cbn [nth_error] in H0. inversion H0; subst r0'; clear H0.
  inversion Hall as [|? ? Hr0 Hrs]; subst.
  unfold legacy_normalise. cbn [points map bind cloud_dimension point_count].
  change (Point_init r0 :: map Point_init rs) with (map Point_init (r0 :: rs)).
  assert (Hdist : legacy_distance (Point_init r0) (Point_init r0) distance_point2_default
                  = Ok (euclid r0 (np_zeros 3))).
  { unfold legacy_distance, distance_point2_default, Origin.
    change (distance (Point_init r0) (Point_init (@np_zeros spec_float _ 3))
            = Ok (euclid r0 (np_zeros 3))).
    apply distance_le. unfold np_zeros. rewrite repeat_length. exact Hd. }
  rewrite mapM_map.
  rewrite (mapM_ext_in _ (fun _ => Ok (euclid r0 (np_zeros 3)))).
  2:{ intros r _.
      change (legacy_distance (Point_init r) (Point_init r0) distance_point2_default)
        with (legacy_distance (Point_init r0) (Point_init r0) distance_point2_default).
      exact Hdist. }
  rewrite mapM_pure. cbn [bind]. rewrite map_const_repeat.
  cbn [length repeat py_max]. rewrite max_of_constant. cbn [bind].
  rewrite mapM_map.
  rewrite (mapM_ext_in _ (fun r => Ok (Point_init
             (normalised_row r0 (euclid r0 (np_zeros 3)) r)))).
  - now rewrite mapM_pure.
  - intros r Hr. rewrite Forall_forall in Hall. specialize (Hall r Hr).
    rewrite legacy_Point_sub_agrees. unfold Point_sub. cbn [dimension coordinates Point_init].
    replace (length r =? length r0) with true by (symmetry; now apply Nat.eqb_eq).
    cbn [negb bind]. now rewrite legacy_Point_truediv_agrees.
Qed.

Lemma legacy_normalise_scales_by_first_point_witness :
  legacy_PointCloud_init (map b64_of_Z [3; 4; 0; 0; 3; 9]%Z) 2 3 true
  = Ok {| points := map (fun r => Point_init
                                    (normalised_row (map b64_of_Z [3; 4]%Z)
                                       (euclid (map b64_of_Z [3; 4]%Z) (np_zeros 3)) r))
                        (chunks 2 3 (map b64_of_Z [3; 4; 0; 0; 3; 9]%Z));
          cloud_dimension := 2; point_count := 3 |}.
Proof.
  apply (@legacy_normalise_scales_by_first_point
           (map b64_of_Z [3; 4; 0; 0; 3; 9]%Z) 2 3 (map b64_of_Z [3; 4]%Z)).
  - reflexivity.
  - lia.
  - reflexivity.
Defined.


(** ** Text: reading failures, writing order, [Point.__str__] *)

Lemma b64_float_error (s : string) (e : PyError) :
  b64_float s = Raise e -> e = ValueError_float.
Proof.
  unfold b64_float. destruct (read_sign _) as [neg body].
  destruct (_ || _); [discriminate|].
  destruct (String.eqb _ _); [discriminate|].
  destruct (read_number body) as [[m ex]|]; [discriminate|congruence].
Qed.

Lemma mapM_first_raise {A B : Type} (f : A -> result B) (l : list A) (t : A) :
  In t l -> is_ok (f t) = false ->
  exists good t' rest e,
    l = good ++ t' :: rest /\
    Forall (fun u => is_ok (f u) = true) good /\
    f t' = Raise e /\ mapM f l = Raise e.
Proof.
  induction l as [|u l IH]; intros Hin Hbad; [easy|].
  cbn [mapM]. destruct (f u) as [v|e] eqn:Eu.
  - destruct Hin as [->|Hin]; [rewrite Eu in Hbad; discriminate|].
    destruct (IH Hin Hbad) as (good & t' & rest & e & -> & Hgood & Et' & Erun).
    exists (u :: good), t', rest, e. repeat split.
    + constructor; [now rewrite Eu|exact Hgood].
    + exact Et'.
    + cbn [bind]. now rewrite Erun.
  - exists [], u, l, e. repeat split; [constructor|exact Eu].
Qed.

(** How [from_csv_line] fails before any cloud is built: an empty
    delimiter is refused by [split]; and when [float()] raises on one
    of the pieces the line splits into, the call raises what
    [float()] raised on the first such piece, whatever the dimension,
    the point count, the flag and the pieces after it. *)
Theorem from_csv_line_failures {F : Type} `{Scalar F} `{FloatText F}
  (line : string) (d n : nat) (flag : bool) :
  from_csv_line line "" d n flag = Raise ValueError_empty_separator /\
  (forall delimiter tokens t,
      str_split line delimiter = Ok tokens ->
      In t tokens -> is_ok (py_float t) = false ->
      exists good t' rest e,
        tokens = good ++ t' :: rest /\
        Forall (fun u => is_ok (py_float u) = true) good /\
        py_float t' = Raise e /\
        from_csv_line line delimiter d n flag = Raise e).
Proof.
  split; [reflexivity|].
  intros delimiter tokens t Hsplit Hin Hbad. unfold from_csv_line.
  rewrite Hsplit. cbn [bind].
  destruct (mapM_first_raise py_float tokens t Hin Hbad)
    as (good & t' & rest & e & Etok & Hgood & Et' & Erun).
  exists good, t', rest, e. rewrite Erun. now repeat split.
Qed.

Lemma from_csv_line_failures_witness :
  exists good t' rest e,
    ["1.0"; "abc"; "2.0"]%string = good ++ t' :: rest /\
    Forall (fun u => is_ok (b64_float u) = true) good /\
    b64_float t' = Raise e /\
    from_csv_line "1.0;abc;2.0" ";" 1 3 false = @Raise (@PointCloud spec_float) e.
Proof.
  apply (proj2 (@from_csv_line_failures spec_float binary64 binary64_text
                  "1.0;abc;2.0"%string 1 3 false)
           ";"%string ["1.0"; "abc"; "2.0"]%string "abc"%string).
  - reflexivity.
  - right. left. reflexivity.
  - reflexivity.
Defined.

(** A cloud without coordinates is written as the empty text, and the
    empty text is never read back: with an empty delimiter [split]
    fails, with any other the one empty piece is not a number. *)
Theorem empty_cloud_is_not_read_back
  (d n : nat) (P : PointCloud) (delimiter : string) (flag : bool) :
  PointCloud_init (@nil spec_float) d n false = Ok P ->
  csv_repr P delimiter = EmptyString /\
  is_ok (from_csv_line (csv_repr P delimiter) delimiter d n flag) = false.
Proof.
  intros Hinit.
  assert (E : csv_repr P delimiter = EmptyString).
  { erewrite csv_repr_init by exact Hinit. reflexivity. }
  split; [exact E|]. rewrite E. now destruct delimiter.
Qed.

Lemma empty_cloud_is_not_read_back_witness :
  csv_repr {| points := @nil (@Point spec_float); cloud_dimension := 3; point_count := 0 |} ","
  = EmptyString /\
  is_ok (from_csv_line
           (csv_repr {| points := @nil (@Point spec_float);
                        cloud_dimension := 3; point_count := 0 |} ",")
           "," 3 0 false) = false.
Proof.
  apply (@empty_cloud_is_not_read_back 3 0
           {| points := []; cloud_dimension := 3; point_count := 0 |} ","%string false).
  reflexivity.
Defined.

(** [csv_repr] of a cloud built without normalisation writes the
    values of the flat sequence it was built from, in that order,
    with the delimiter between them. *)
Theorem csv_repr_writes_the_raw_sequence {F : Type} `{Scalar F} `{FloatText F}
  (raw : list F) (d n : nat) (P : PointCloud) (delimiter : string) :
  PointCloud_init raw d n false = Ok P ->
  csv_repr P delimiter = str_join delimiter (map py_str raw).
Proof. intros Hinit. now apply csv_repr_init with (dimension := d) (point_count := n). Qed.

Lemma csv_repr_writes_the_raw_sequence_witness :
  csv_repr scaling_cloud ";"
  = str_join ";" (map py_str scaling_scenario).
Proof.
  apply (@csv_repr_writes_the_raw_sequence spec_float binary64 binary64_text
           scaling_scenario 3 3 scaling_cloud ";"%string).
  reflexivity.
Defined.

(** The text of a Point of at least one coordinate is its coordinates'
    texts between parentheses, and splitting what stands between the
    parentheses on [", "] gives those texts back, one per coordinate. *)
Theorem Point_str_splits_into_coordinates (coords : list spec_float) :
  coords <> [] ->
  exists body,
    Point_str (Point_init coords) = String.append "(" (String.append body ")") /\
    str_split body ", " = Ok (map py_str coords).
Proof.
  intros Hne. exists (str_join ", " (map py_str coords)). split; [reflexivity|].
  apply str_split_join.
  - destruct coords; [congruence|discriminate].
  - apply Forall_forall. intros t Ht. apply in_map_iff in Ht.
    destruct Ht as (x & <- & _). apply b64_str_no_comma.
Qed.

Lemma Point_str_splits_into_coordinates_witness :
  exists body,
    Point_str (Point_init [b64_of_Z 1; b64_of_decimal true 25 (-1)])
    = String.append "(" (String.append body ")") /\
    str_split body ", "
    = Ok (map py_str [b64_of_Z 1; b64_of_decimal true 25 (-1)]).
Proof.
  apply (@Point_str_splits_into_coordinates [b64_of_Z 1; b64_of_decimal true 25 (-1)]).
  discriminate.
Defined.


(** ** [plot] on the clouds the constructor builds *)

Section PlotFacts.
Context {F : Type} `{Scalar F}.

Lemma ndarray_zip_same_length (f : F -> F -> F) (a b : list F) :
  length a = length b -> length (ndarray_zip f a b) = length a.
Proof.
  intros Hlen. unfold ndarray_zip. rewrite length_map, length_combine. lia.
Qed.

Lemma shift_scale_well_shaped (d : nat) (origin : @Point F) (m : F) (pts new_points : list (@Point F)) :
  well_shaped d origin ->
  Forall (well_shaped d) pts ->
  mapM (fun point => shifted <- Point_sub point origin ;; Point_truediv shifted m) pts
  = Ok new_points ->
  Forall (well_shaped d) new_points /\ length new_points = length pts.
Proof.
  intros [Hod Hol] Hall. revert new_points.
  induction Hall as [|p pts [Hpd Hpl] Hall IH]; intros new_points Hrun.
  - cbn in Hrun. inversion Hrun. now split.
  - cbn [mapM] in Hrun. unfold Point_sub at 1 in Hrun.
    destruct (negb (dimension p =? dimension origin)); [discriminate|].
    cbn [bind Point_truediv] in Hrun.
    destruct (mapM _ pts) as [rest|e]; [|discriminate].
    cbn [bind] in Hrun. inversion Hrun. destruct (IH rest eq_refl) as [Hrest Hlen].
    split; [|cbn [length]; now rewrite Hlen].
    constructor; [|exact Hrest].
    unfold well_shaped. cbn [dimension coordinates Point_init].
    rewrite length_map, ndarray_zip_same_length; [now split|lia].
Qed.

Lemma normalise_well_shaped (d : nat) (c c' : @PointCloud F) :
  Forall (well_shaped d) (points c) ->
  normalise c = Ok c' ->
  Forall (well_shaped d) (points c') /\ length (points c') = length (points c) /\
  cloud_dimension c' = cloud_dimension c.
Proof.
  intros Hall Hrun. unfold normalise in Hrun.
  destruct (points c) as [|origin rest] eqn:Epts; [discriminate|].
  cbn [bind tl] in Hrun.
  destruct (mapM _ rest) as [distances|e]; [|discriminate]. cbn [bind] in Hrun.
  destruct (py_max distances) as [m|e]; [|discriminate]. cbn [bind] in Hrun.
  destruct (mapM _ (origin :: rest)) as [new_points|e] eqn:Enew; [|discriminate].
  cbn [bind] in Hrun. inversion Hrun. cbn [points cloud_dimension].
  destruct (@shift_scale_well_shaped d origin m (origin :: rest) new_points) as [Hs Hl];
    [now inversion Hall|exact Hall|exact Enew|].
  now repeat split.
Qed.

Lemma PointCloud_init_well_shaped (raw : list F) (d n : nat) (flag : bool) (c : @PointCloud F) :
  PointCloud_init raw d n flag = Ok c ->
  Forall (well_shaped d) (points c) /\ length (points c) = n /\ cloud_dimension c = d.
Proof.
  unfold PointCloud_init, ndarray_reshape.
  destruct (length raw =? n * d) eqn:Elen; [|discriminate].
  apply Nat.eqb_eq in Elen. cbn [bind].
  assert (Hrows : Forall (well_shaped d) (map Point_init (chunks d n raw))).
  { apply Forall_map. eapply Forall_impl; [|apply (chunks_row_length d n raw Elen)].
    intros r Hr. unfold well_shaped. cbn [dimension coordinates Point_init]. now split. }
  destruct flag.
  - intros Hrun.
    destruct (@normalise_well_shaped d
                {| points := map Point_init (chunks d n raw);
                   cloud_dimension := d; point_count := n |} c Hrows Hrun)
      as (Hs & Hl & Hd).
    cbn [points cloud_dimension] in Hl, Hd.
    rewrite length_map, chunks_length in Hl. now repeat split.
  - intros Hrun. inversion Hrun. cbn [points cloud_dimension].
    rewrite length_map, chunks_length. now repeat split.
Qed.

Lemma Point_next_inside (p : @Point F) (i : nat) :
  dimension p = length (coordinates p) -> i < dimension p ->
  exists v, nth_error (coordinates p) i = Some v /\ Point_next p (Z.of_nat i) = Ok (Some v).
Proof.
  intros Hd Hi. unfold Point_next, Point_getitem.
  replace (Z.of_nat i >? Z.of_nat (dimension p) - 1)%Z with false
    by (symmetry; rewrite Z.gtb_ltb; apply Z.ltb_ge; lia).
  unfold ndarray_getitem.
  replace ((Z.of_nat i <? - Z.of_nat (length (coordinates p)))
           || (Z.of_nat (length (coordinates p)) <=? Z.of_nat i))%Z with false
    by (symmetry; apply orb_false_iff; split; [apply Z.ltb_ge|apply Z.leb_gt]; lia).
  replace (Z.of_nat i <? 0)%Z with false by (symmetry; apply Z.ltb_ge; lia).
  rewrite Nat2Z.id.
  destruct (nth_error (coordinates p) i) as [v|] eqn:E;
    [|apply nth_error_None in E; lia].
  now exists v.
Qed.

Lemma Point_next_end (p : @Point F) :
  Point_next p (Z.of_nat (dimension p)) = Ok None.
Proof.
  unfold Point_next, Point_getitem.
  now replace (Z.of_nat (dimension p) >? Z.of_nat (dimension p) - 1)%Z with true
    by (symmetry; rewrite Z.gtb_ltb; apply Z.ltb_lt; lia).
Qed.

Lemma unpack3_well_shaped (p : @Point F) :
  well_shaped 3 p ->
  exists vx vy vz, coordinates p = [vx; vy; vz] /\ unpack3 p = inr (vx, vy, vz).
Proof.
  intros [Hd Hl].
  destruct (coordinates p) as [|vx [|vy [|vz [|extra more]]]] eqn:Ec; try discriminate.
  exists vx, vy, vz. split; [reflexivity|]. unfold unpack3.
  destruct (@Point_next_inside p 0) as (v0 & E0 & N0); [rewrite Ec; exact Hd|lia|].
  destruct (@Point_next_inside p 1) as (v1 & E1 & N1); [rewrite Ec; exact Hd|lia|].
  destruct (@Point_next_inside p 2) as (v2 & E2 & N2); [rewrite Ec; exact Hd|lia|].
  rewrite Ec in E0, E1, E2. cbn in E0, E1, E2. inversion E0. inversion E1. inversion E2.
  subst v0 v1 v2. cbn [Z.of_nat Pos.of_succ_nat Pos.succ] in N0, N1, N2.
  rewrite N0, N1, N2.
  pose proof (Point_next_end p) as Nend. rewrite Hd in Nend.
  cbn [Z.of_nat Pos.of_succ_nat Pos.succ] in Nend. now rewrite Nend.
Qed.

Lemma scatter_points_well_shaped (pts : list (@Point F)) :
  Forall (well_shaped 3) pts ->
  exists scattered,
    scatter_points pts = inr scattered /\
    map (fun t => [fst (fst t); snd (fst t); snd t]) scattered = map coordinates pts.
Proof.
  induction 1 as [|p pts Hp Hall (scattered & Hrun & Hmap)].
  - now exists [].
  - destruct (unpack3_well_shaped Hp) as (vx & vy & vz & Ec & Eu).
    exists ((vx, vy, vz) :: scattered). cbn [scatter_points]. rewrite Eu, Hrun.
    split; [reflexivity|]. cbn [map fst snd]. now rewrite Hmap, Ec.
Qed.

End PlotFacts.

(** [plot] on a cloud the constructor returned, normalised or not: if
    the cloud's dimension is not 3 it raises its own ValueError before
    anything is drawn; if it is 3, unpacking [x, y, z] succeeds for
    every point (iterating a Point ends after its third coordinate),
    and [scatter] is called once per point, in order, with the point's
    three coordinates. *)
Theorem plot_of_constructed_cloud {F : Type} `{Scalar F}
  (raw : list F) (d n : nat) (flag : bool) (c : PointCloud) :
  PointCloud_init raw d n flag = Ok c ->
  (d <> 3 -> plot c = inl ValueError_plot_dimension) /\
  (d = 3 ->
   exists scattered,
     plot c = inr scattered /\ length scattered = n /\
     map (fun t => [fst (fst t); snd (fst t); snd t]) scattered
     = map coordinates (points c)).
Proof.
  intros Hinit. destruct (PointCloud_init_well_shaped _ _ _ _ Hinit) as (Hs & Hl & Hd).
  unfold plot. rewrite Hd. split.
  - intros Hne. now replace (d =? 3) with false by (symmetry; now apply Nat.eqb_neq).
  - intros ->. cbn [Nat.eqb negb].
    destruct (scatter_points_well_shaped Hs) as (scattered & Hrun & Hmap).
    exists scattered. repeat split; [exact Hrun| |exact Hmap].
    rewrite <- Hl, <- (length_map coordinates), <- Hmap. now rewrite length_map.
Qed.

Lemma plot_of_constructed_cloud_witness :
  exists scattered,
    plot scaling_cloud = inr scattered /\ length scattered = 3 /\
    map (fun t => [fst (fst t); snd (fst t); snd t]) scattered
    = map coordinates (points scaling_cloud).
Proof.
  apply (proj2 (@plot_of_constructed_cloud spec_float binary64
                  scaling_scenario 3 3 false scaling_cloud eq_refl)).
  reflexivity.
Defined.


(** ** What [normalise] does guarantee in binary64 *)

(** In binary64, for a cloud whose first point is finite and whose
    greatest distance from it is above zero (infinite included),
    [normalise] succeeds, turns every point [p] into [(p - p0) / m]
    coordinate by coordinate, and leaves the first point at the zero
    vector of the cloud's dimension. *)
Theorem normalise_first_point_zero
  (raw : list spec_float) (d n : nat) (c : PointCloud) (m : spec_float) :
  PointCloud_init raw d n false = Ok c ->
  max_distance_from_first c = Ok m ->
  s_ltb s_zero m = true ->
  (forall p0, nth_error (points c) 0 = Some p0 ->
              forallb is_finite (coordinates p0) = true) ->
  exists c' p0,
    nth_error (points c) 0 = Some p0 /\
    PointCloud_init raw d n true = Ok c' /\
    points c' = map (fun p => Point_init (normalised_row (coordinates p0) m (coordinates p)))
                    (points c) /\
    nth_error (points c') 0 = Some (Origin d).
Proof.
  intros Hinit Hmax Hpos Hfin.
  pose proof (PointCloud_init_shape _ _ _ _ Hinit) as Hlen.
  rewrite (PointCloud_init_normalised _ _ _ Hlen).
  rewrite (PointCloud_init_plain _ _ _ Hlen) in Hinit. inversion Hinit; subst c; clear Hinit.
  pose proof (chunks_row_length d n raw Hlen) as Hall.
  destruct (chunks d n raw) as [|r0 rs]; [discriminate|].
  rewrite (max_distance_from_first_rows n Hall) in Hmax.
  rewrite (normalise_rows n Hall), Hmax. cbn [bind].
  specialize (Hfin (Point_init r0) eq_refl). cbn [coordinates Point_init] in Hfin.
  do 2 eexists. split; [reflexivity|]. split; [reflexivity|]. cbn [points]. split.
  - rewrite map_map. reflexivity.
  - cbn [map nth_error]. rewrite (b64_normalised_row_origin _ _ Hfin Hpos).
    inversion Hall; subst. reflexivity.
Qed.

Lemma normalise_first_point_zero_witness :
  exists c' p0,
    nth_error (points scaling_cloud) 0 = Some p0 /\
    PointCloud_init scaling_scenario 3 3 true = Ok c' /\
    points c' = map (fun p => Point_init (normalised_row (coordinates p0) (b64_of_Z 2)
                                            (coordinates p)))
                    (points scaling_cloud) /\
    nth_error (points c') 0 = Some (Origin 3).
Proof.
  apply (@normalise_first_point_zero scaling_scenario 3 3 scaling_cloud (b64_of_Z 2)).
  - reflexivity.
  - reflexivity.
  - reflexivity.
  - intros p0 Hp0. inversion Hp0. reflexivity.
Defined.

